(** * WrenAI service: SQL post-processing and the instructions event cache

    A shallow embedding of
    - [SQLGenPostProcessor] (src/pipelines/generation/utils/sql.py), the
      component that normalises a generated reply and classifies the SQL
      candidate against the query engine, and
    - [InstructionsService.__getitem__] (src/web/v1/services/instructions.py),
      the lookup of an indexing event in the TTL cache.

    Python dictionaries are [gmap string pyval]; exceptions and the calls made
    on collaborators are explicit: a computation yields an outcome (a value or
    a raised exception) together with the ordered list of events it caused. *)

From Stdlib Require Import ZArith QArith String Ascii List.
From stdpp Require Import gmap strings list fin_maps.

Set Warnings "-register-all".


(** ** Python values *)

Module Py.

(** The dynamically typed values that flow through the component: the result
    of [orjson.loads], the values stored in result dictionaries and in the
    engine's [addition] mapping. *)
Inductive pyval : Type :=
| VNone
| VBool (b : bool)
| VInt (z : Z)
| VStr (s : string)
| VList (l : list pyval)
| VDict (d : gmap string pyval).

Abbreviation dict := (gmap string pyval).

(** An exception object: its class name and [str(e)]. *)
Record pyexn : Type := PyExn { exn_class : string; exn_msg : string }.

(** How an evaluation ends: with a value, with an exception that is an
    instance of [Exception], or with an exception whose class derives from
    [BaseException] only ([asyncio.CancelledError] at an [await],
    [KeyboardInterrupt], [SystemExit]). *)
Inductive outcome (A : Type) : Type :=
| Ret (a : A)
| Raise (e : pyexn)
| RaiseBase (e : pyexn).
Arguments Ret {A} a.
Arguments Raise {A} e.
Arguments RaiseBase {A} e.

(** A dict display [{k1: v1, ..., kn: vn}]: keys are stored left to right. *)
Definition mkdict (items : list (string * pyval)) : dict :=
  fold_left (fun m kv => <[kv.1 := kv.2]> m) items ∅.

(** [d.get(key, dflt)] *)
Definition dict_get (d : dict) (key : string) (dflt : pyval) : pyval :=
  match d !! key with
  | Some v => v
  | None => dflt
  end.

(** [v.startswith(p)]: a method of [str]; other values have no such
    attribute. *)
Definition startswith (v : pyval) (p : string) : outcome bool :=
  match v with
  | VStr s => Ret (String.prefix p s)
  | _ => Raise (PyExn "AttributeError" "object has no attribute 'startswith'")
  end.

(** [v == s] for a string literal [s]. *)
Definition eq_str (v : pyval) (s : string) : bool :=
  match v with
  | VStr s' => String.eqb s' s
  | _ => false
  end.

(** [v[key]] for a string key. *)
Definition getitem (v : pyval) (key : string) : outcome pyval :=
  match v with
  | VDict d =>
      match d !! key with
      | Some x => Ret x
      | None => Raise (PyExn "KeyError" ("'" +:+ key +:+ "'"))
      end
  | VList _ => Raise (PyExn "TypeError" "list indices must be integers or slices, not str")
  | VStr _ => Raise (PyExn "TypeError" "string indices must be integers, not 'str'")
  | _ => Raise (PyExn "TypeError" "object is not subscriptable")
  end.

(** [l[0]] on a list. *)
Definition first {A : Type} (l : list A) : outcome A :=
  match l !! 0%nat with
  | Some x => Ret x
  | None => Raise (PyExn "IndexError" "list index out of range")
  end.

End Py.
Export Py.

(** ** Effects: exceptions and the trace of collaborator calls *)

Module Eff.

(** The session object created by [aiohttp.ClientSession()]. *)
Inductive ClientSession : Type := Session.

Section Events.
(** [time] is the type of the [timeout] argument (a Python float that is
    only passed on to the engine). *)
Context {time : Type}.

Inductive event : Type :=
| SessionOpened
| SessionClosed
| DryPlanCalled (session : ClientSession) (sql : string) (data_source : string)
    (timeout : time) (allow_fallback : bool)
| ExecuteSqlCalled (sql : string) (session : ClientSession)
    (project_id : option string) (timeout : time) (limit : Z) (dry_run : bool)
| Logged (message : string).

(** A computation: its outcome and the events it caused, oldest first. *)
Definition M (A : Type) : Type := (outcome A * list event)%type.

Definition ret {A} (a : A) : M A := (Ret a, []).
Definition raise {A} (e : pyexn) : M A := (Raise e, []).
Definition lift {A} (o : outcome A) : M A := (o, []).
Definition emit (ev : event) : M unit := (Ret tt, [ev]).

Definition bind {A B} (m : M A) (k : A -> M B) : M B :=
  match m with
  | (Ret a, tr) => let (r, tr') := k a in (r, tr ++ tr')
  | (Raise e, tr) => (Raise e, tr)
  | (RaiseBase e, tr) => (RaiseBase e, tr)
  end.

(** [try: m  except Exception as e: h e]: the handler takes the instances of
    [Exception]; any other exception leaves the statement. *)
Definition try_except {A} (m : M A) (h : pyexn -> M A) : M A :=
  match m with
  | (Ret a, tr) => (Ret a, tr)
  | (Raise e, tr) => let (r, tr') := h e in (r, tr ++ tr')
  | (RaiseBase e, tr) => (RaiseBase e, tr)
  end.

(** [async with aiohttp.ClientSession() as session: body]: the session is
    closed on every exit of the body, and an exception of the body, of
    either kind, is not swallowed. *)
Definition async_with_session {A} (body : ClientSession -> M A) : M A :=
  let (r, tr) := body Session in (r, SessionOpened :: tr ++ [SessionClosed]).

Definition is_engine_call (ev : event) : bool :=
  match ev with
  | DryPlanCalled _ _ _ _ _ | ExecuteSqlCalled _ _ _ _ _ _ => true
  | _ => false
  end.

(** The engine operations invoked by a computation. *)
Definition engine_calls {A} (m : M A) : list event :=
  List.filter is_engine_call (snd m).
End Events.
Arguments event : clear implicits.
Arguments M : clear implicits.

Declare Scope eff_scope.
Delimit Scope eff_scope with eff.
Notation "'let*' p ':=' m 'in' k" := (bind m (fun p => k))
  (at level 10, p pattern, m at level 100, k at level 200) : eff_scope.

End Eff.
Export Eff.

(** ** Collaborators *)

(** [src.core.engine.Engine]: the query engine held in [self._engine].
    [dry_plan] returns [(ok, error_message)]; [execute_sql] returns
    [(ok, rows, addition)]. Either may raise, and being awaited, either may
    be cancelled. *)
Class Engine (time : Type) : Type := {
  dry_plan : ClientSession -> string -> string -> time -> bool ->
             outcome (bool * string);
  execute_sql : string -> ClientSession -> option string -> time -> Z -> bool ->
                outcome (bool * pyval * dict)
}.

(** The two helpers imported from [src.core.engine].  [add_quotes] returns
    [(quoted_sql, error_message)]. *)
Class CoreEngine (reply : Type) : Type := {
  clean_generation_result : reply -> outcome string;
  add_quotes : pyval -> outcome (string * string)
}.

(** [orjson.loads] *)
Class Orjson : Type := {
  loads : string -> outcome pyval
}.

(** ** SQLGenPostProcessor *)

Module SQLGenPostProcessor.

(** The two outputs declared by [@component.output_types]. *)
Record output : Type := Output {
  valid_generation_result : dict;
  invalid_generation_result : dict
}.

Section Component.
Context {time reply : Type}.
Context {engine : Engine time} {core_engine : CoreEngine reply}
  {orjson : Orjson}.
Local Open Scope eff_scope.

Definition call_dry_plan (session : ClientSession) (sql data_source : string)
    (timeout : time) (allow_fallback : bool) : M time (bool * string) :=
  let* _ := emit (DryPlanCalled session sql data_source timeout allow_fallback) in
  lift (dry_plan session sql data_source timeout allow_fallback).

Definition call_execute_sql (sql : string) (session : ClientSession)
    (project_id : option string) (timeout : time) (limit : Z) (dry_run : bool)
    : M time (bool * pyval * dict) :=
  let* _ := emit (ExecuteSqlCalled sql session project_id timeout limit dry_run) in
  lift (execute_sql sql session project_id timeout limit dry_run).

Definition _classify_generation_result (generation_result : pyval)
    (timeout : time) (project_id : option string) (use_dry_plan : bool)
    (allow_dry_plan_fallback : bool) (data_source : string)
    (allow_data_preview : bool) : M time (dict * dict) :=
  let valid_generation_result : dict := ∅ in
  let invalid_generation_result : dict := ∅ in
  let* (quoted_sql, error_message) := lift (add_quotes generation_result) in
  let use_dry_run := negb allow_data_preview in
  async_with_session (fun session =>
    if String.eqb error_message "" then
      if use_dry_plan then
        let* (dry_plan_result, error_message) :=
          call_dry_plan session quoted_sql data_source timeout
            allow_dry_plan_fallback in
        if (dry_plan_result : bool) then
          ret (mkdict [("sql", VStr quoted_sql);
                       ("correlation_id", VStr "")],
               invalid_generation_result)
        else
          ret (valid_generation_result,
               mkdict [("sql", VStr quoted_sql);
                       ("type", VStr (if String.prefix "Request timed out" error_message
                                      then "TIME_OUT" else "DRY_PLAN"));
                       ("error", VStr error_message);
                       ("correlation_id", VStr "")])
      else if use_dry_run then
        let* (status, _, addition) :=
          call_execute_sql quoted_sql session project_id timeout 1 true in
        if (status : bool) then
          ret (mkdict [("sql", VStr quoted_sql);
                       ("correlation_id", dict_get addition "correlation_id" (VStr ""))],
               invalid_generation_result)
        else
          let error_message := dict_get addition "error_message" (VStr "") in
          let* timed_out := lift (startswith error_message "Request timed out") in
          ret (valid_generation_result,
               mkdict [("sql", VStr quoted_sql);
                       ("type", VStr (if (timed_out : bool) then "TIME_OUT" else "DRY_RUN"));
                       ("error", error_message);
                       ("correlation_id", dict_get addition "correlation_id" (VStr ""))])
      else
        let* (status, _, addition) :=
          call_execute_sql quoted_sql session project_id timeout 1 false in
        if (status : bool) then
          ret (mkdict [("sql", VStr quoted_sql);
                       ("correlation_id", dict_get addition "correlation_id" (VStr ""))],
               invalid_generation_result)
        else
          let error_message := dict_get addition "error_message" (VStr "") in
          let preview_data_status :=
            if eq_str error_message "" then "PREVIEW_EMPTY_DATA"
            else "PREVIEW_FAILED" in
          let* timed_out := lift (startswith error_message "Request timed out") in
          ret (valid_generation_result,
               mkdict [("sql", VStr quoted_sql);
                       ("type", VStr (if (timed_out : bool) then "TIME_OUT"
                                      else preview_data_status));
                       ("error", error_message);
                       ("correlation_id", dict_get addition "correlation_id" (VStr ""))])
    else
      ret (valid_generation_result,
           mkdict [("sql", generation_result);
                   ("type", VStr "ADD_QUOTES");
                   ("error", VStr error_message)])).

(** The candidate obtained from the reply set: the body of [run] up to the
    call of the classifier. *)
Definition normalize (replies : list reply) : M time pyval :=
  let* reply0 := lift (first replies) in
  let* cleaned_generation_result := lift (clean_generation_result reply0) in
  if String.prefix "{" cleaned_generation_result then
    let* parsed := lift (loads cleaned_generation_result) in
    lift (getitem parsed "sql")
  else
    ret (VStr cleaned_generation_result).

(** The [try] block of [run]. *)
Definition run_body (replies : list reply) (timeout : time)
    (project_id : option string) (use_dry_plan allow_dry_plan_fallback : bool)
    (data_source : string) (allow_data_preview : bool) : M time output :=
  let* cleaned_generation_result := normalize replies in
  let* (valid_generation_result, invalid_generation_result) :=
    _classify_generation_result cleaned_generation_result timeout project_id
      use_dry_plan allow_dry_plan_fallback data_source allow_data_preview in
  ret (Output valid_generation_result invalid_generation_result).

Definition run (replies : list reply) (timeout : time)
    (project_id : option string) (use_dry_plan allow_dry_plan_fallback : bool)
    (data_source : string) (allow_data_preview : bool) : M time output :=
  try_except
    (run_body replies timeout project_id use_dry_plan allow_dry_plan_fallback
       data_source allow_data_preview)
    (fun e =>
       let* _ := emit (Logged ("Error in SQLGenPostProcessor: " +:+ exn_msg e)) in
       ret (Output ∅ ∅)).
End Component.

End SQLGenPostProcessor.

(** ** InstructionsService *)

Module InstructionsService.

Inductive Status : Type := indexing | deleting | finished | failed.
Inductive ErrorCode : Type := OTHERS.
Inductive RequestFrom : Type := ui | api.

Record Error : Type := mkError {
  code : ErrorCode;
  message : string
}.

Record Event : Type := mkEvent {
  event_id : string;
  status : Status;
  error : option Error;
  trace_id : option string;
  request_from : RequestFrom
}.

(** [Event(event_id=.., status=.., error=..)]: the fields that are not given
    take the defaults of the class ([trace_id = None], [request_from = "ui"]). *)
Definition Event_new (event_id : string) (status : Status) (error : option Error)
    : Event :=
  mkEvent event_id status error None ui.

(** [cachetools.TTLCache], as far as the lookup needs it: every stored value
    carries the reading of the timer at which it expires, and a key is in the
    cache while the timer is strictly below that reading.  [recency] lists
    the stored keys from the least to the most recently used; the cache
    evicts from its front. *)
Record TTLCache : Type := mkTTLCache {
  maxsize : Z;
  ttl : Z;
  links : gmap string (Event * Z);
  recency : list string
}.

(** The cache after a key has been found: the key becomes the most recently
    used one. *)
Definition TTLCache_move_to_end (cache : TTLCache) (key : string) : TTLCache :=
  mkTTLCache (maxsize cache) (ttl cache) (links cache)
    (List.filter (fun k => negb (String.eqb k key)) (recency cache) ++ [key]).

(** The value of [cache.get(key)] at timer reading [now]: [None] for a key
    that was never stored or whose entry has expired. *)
Definition TTLCache_get (cache : TTLCache) (now : Z) (key : string)
    : option Event :=
  match links cache !! key with
  | Some (value, expires) => if (now <? expires)%Z then Some value else None
  | None => None
  end.

(** The service object: the pipelines play no part in the lookup. *)
Record service : Type := mkService {
  _cache : TTLCache
}.

(** [__getitem__] at timer reading [now]: the response, the service after the
    call and the messages passed to [logger.exception].  A miss leaves the
    cache as it is; a hit moves the key to the most recently used end. *)
Definition __getitem__ (self : service) (now : Z) (event_id : string)
    : outcome Event * service * list string :=
  let response := TTLCache_get (_cache self) now event_id in
  match response with
  | None =>
      let message :=
        "Instructions Event with ID '" +:+ event_id +:+ "' not found." in
      (Ret (Event_new event_id failed (Some (mkError OTHERS message))),
       self, [message])
  | Some response =>
      (Ret response,
       mkService (TTLCache_move_to_end (_cache self) event_id), [])
  end.

End InstructionsService.

(** ** The module-level helpers of sql.py *)

(** [haystack.dataclasses.ChatMessage]: the two constructors used to build
    the history; the message type is left to the library. *)
Class ChatMessages (message : Type) : Type := {
  from_user : pyval -> outcome message;
  from_assistant : pyval -> outcome message
}.

Module SqlUtils.

(** [construct_instructions]: [None] and the empty list are both falsy. *)
Definition construct_instructions (instructions : option (list dict))
    : list pyval :=
  let _instructions : list pyval := [] in
  match instructions with
  | Some ((_ :: _) as instructions) =>
      _instructions ++
      map (fun instruction => dict_get instruction "instruction" VNone)
        instructions
  | _ => _instructions
  end.

(** [src.web.v1.services.ask.AskHistory]: a model with the attributes
    [question] and [sql]. *)
Record AskHistory : Type := mkAskHistory {
  history_question : string;
  history_sql : string
}.

(** An element of [histories]: an [AskHistory] or a dict. *)
Inductive history : Type :=
| HistoryModel (h : AskHistory)
| HistoryDict (d : dict).

(** [history.question if hasattr(history, "question") else history["question"]] *)
Definition question_of (h : history) : outcome pyval :=
  match h with
  | HistoryModel m => Ret (VStr (history_question m))
  | HistoryDict d => getitem (VDict d) "question"
  end.

(** [history.sql if hasattr(history, "sql") else history["sql"]] *)
Definition sql_of (h : history) : outcome pyval :=
  match h with
  | HistoryModel m => Ret (VStr (history_sql m))
  | HistoryDict d => getitem (VDict d) "sql"
  end.

Section History.
Context {message : Type} {chat : ChatMessages message}.

(** The loop of [construct_ask_history_messages] from a given state of
    [messages]. *)
Fixpoint append_history_messages (histories : list history)
    (messages : list message) : outcome (list message) :=
  match histories with
  | [] => Ret messages
  | h :: histories =>
      match question_of h with
      | Raise e => Raise e
      | RaiseBase e => RaiseBase e
      | Ret question =>
          match from_user question with
          | Raise e => Raise e
          | RaiseBase e => RaiseBase e
          | Ret user_message =>
              let messages := messages ++ [user_message] in
              match sql_of h with
              | Raise e => Raise e
              | RaiseBase e => RaiseBase e
              | Ret sql =>
                  match from_assistant sql with
                  | Raise e => Raise e
                  | RaiseBase e => RaiseBase e
                  | Ret assistant_message =>
                      append_history_messages histories
                        (messages ++ [assistant_message])
                  end
              end
          end
      end
  end.

Definition construct_ask_history_messages (histories : list history)
    : outcome (list message) :=
  append_history_messages histories [].
End History.

End SqlUtils.

(** ** The instruction list built by [InstructionsService.index] *)

Module InstructionsIndexing.

Inductive Scope : Type := sql | answer | chart.

(** [InstructionsService.Instruction], an element of [request.instructions]. *)
Record Instruction : Type := mkInstruction {
  id : string;
  instruction : string;
  questions : list string;
  is_default : bool;
  scope : Scope
}.

(** [src.pipelines.indexing.instructions.Instruction], as [index] constructs
    it: the five keyword arguments. *)
Record IndexedInstruction : Type := mkIndexedInstruction {
  indexed_id : string;
  indexed_instruction : string;
  question : string;
  indexed_is_default : bool;
  indexed_scope : Scope
}.

(** The inner loop [for question in instruction.questions]. *)
Fixpoint append_questions (instruction0 : Instruction) (questions0 : list string)
    (instructions : list IndexedInstruction) : list IndexedInstruction :=
  match questions0 with
  | [] => instructions
  | question0 :: questions0 =>
      append_questions instruction0 questions0
        (instructions ++
         [mkIndexedInstruction (id instruction0) (instruction instruction0)
            question0 false (scope instruction0)])
  end.

(** The outer loop [for instruction in request.instructions]. *)
Fixpoint append_instructions (request_instructions : list Instruction)
    (instructions : list IndexedInstruction) : list IndexedInstruction :=
  match request_instructions with
  | [] => instructions
  | instruction0 :: request_instructions =>
      append_instructions request_instructions
        (if is_default instruction0 then
           instructions ++
           [mkIndexedInstruction (id instruction0) (instruction instruction0)
              "" true (scope instruction0)]
         else
           append_questions instruction0 (questions instruction0) instructions)
  end.

(** The value of [instructions] when [index] calls the indexing pipeline. *)
Definition index_instructions (request_instructions : list Instruction)
    : list IndexedInstruction :=
  append_instructions request_instructions [].

(** The indexed entries one instruction stands for. *)
Definition entries_of (instruction0 : Instruction) : list IndexedInstruction :=
  if is_default instruction0 then
    [mkIndexedInstruction (id instruction0) (instruction instruction0) ""
       true (scope instruction0)]
  else
    map (fun question0 =>
           mkIndexedInstruction (id instruction0) (instruction instruction0)
             question0 false (scope instruction0))
      (questions instruction0).

End InstructionsIndexing.

(** ** The shape of the classifier's results *)

Module ResultShape.

(** The values the classifier stores under [type]. *)
Definition error_types : list string :=
  ["ADD_QUOTES"; "TIME_OUT"; "DRY_PLAN"; "DRY_RUN"; "PREVIEW_EMPTY_DATA";
   "PREVIEW_FAILED"].

Definition valid_keys : gset string := {["sql"; "correlation_id"]}.

Definition invalid_keys (ty : string) : gset string :=
  if String.eqb ty "ADD_QUOTES" then {["sql"; "type"; "error"]}
  else {["sql"; "type"; "error"; "correlation_id"]}.

Definition is_text (v : pyval) : bool :=
  match v with
  | VStr _ => true
  | _ => false
  end.

End ResultShape.

(** ** Test doubles for the collaborators *)

Module Doubles.

Definition dquote : ascii := "034"%char.
Definition backslash : ascii := "092"%char.

(** [quoted s] is [s] between two double-quote characters. *)
Definition quoted (s : string) : string :=
  String dquote (s +:+ String dquote "").

(** A reader for the part of JSON that the examples use: objects, arrays,
    strings with the single-character escapes, integers and the three
    literals. *)
Module Json.

Definition is_ws (c : ascii) : bool :=
  (Ascii.eqb c " " || Ascii.eqb c "009" || Ascii.eqb c "010" || Ascii.eqb c "013")%bool%char.

Fixpoint skip_ws (s : string) : string :=
  match s with
  | String c s' => if is_ws c then skip_ws s' else s
  | EmptyString => s
  end.

Definition unescape (c : ascii) : option ascii :=
  if Ascii.eqb c dquote then Some dquote
  else if Ascii.eqb c backslash then Some backslash
  else if Ascii.eqb c "/"%char then Some "/"%char
  else if Ascii.eqb c "n"%char then Some "010"%char
  else if Ascii.eqb c "t"%char then Some "009"%char
  else if Ascii.eqb c "r"%char then Some "013"%char
  else if Ascii.eqb c "b"%char then Some "008"%char
  else if Ascii.eqb c "f"%char then Some "012"%char
  else None.

(** The rest of a string literal, after its opening quote. *)
Fixpoint read_string (s : string) : option (string * string) :=
  match s with
  | EmptyString => None
  | String c s' =>
      if Ascii.eqb c dquote then Some (EmptyString, s')
      else if Ascii.eqb c backslash then
        match s' with
        | String e s'' =>
            match unescape e, read_string s'' with
            | Some ch, Some (body, rest) => Some (String ch body, rest)
            | _, _ => None
            end
        | EmptyString => None
        end
      else
        match read_string s' with
        | Some (body, rest) => Some (String c body, rest)
        | None => None
        end
  end.

Definition digit (c : ascii) : option Z :=
  let n := Z.of_nat (nat_of_ascii c) in
  if ((48 <=? n) && (n <=? 57))%bool%Z then Some (n - 48)%Z else None.

Fixpoint read_digits (s : string) (acc : Z) : Z * string :=
  match s with
  | String c s' =>
      match digit c with
      | Some d => read_digits s' (10 * acc + d)%Z
      | None => (acc, s)
      end
  | EmptyString => (acc, s)
  end.

Fixpoint drop (n : nat) (s : string) : string :=
  match n, s with
  | S n', String _ s' => drop n' s'
  | _, _ => s
  end.

Fixpoint read_value (fuel : nat) (s : string) : option (pyval * string) :=
  match fuel with
  | O => None
  | S fuel' =>
      match skip_ws s with
      | EmptyString => None
      | String c s' as s0 =>
          if Ascii.eqb c "{"%char then
            match skip_ws s' with
            | String c' s'' =>
                if Ascii.eqb c' "}"%char then Some (VDict ∅, s'')
                else read_members fuel' s' ∅
            | EmptyString => None
            end
          else if Ascii.eqb c "["%char then
            match skip_ws s' with
            | String c' s'' =>
                if Ascii.eqb c' "]"%char then Some (VList [], s'')
                else read_elements fuel' s' []
            | EmptyString => None
            end
          else if Ascii.eqb c dquote then
            match read_string s' with
            | Some (body, rest) => Some (VStr body, rest)
            | None => None
            end
          else if String.prefix "true" s0 then Some (VBool true, drop 4 s0)
          else if String.prefix "false" s0 then Some (VBool false, drop 5 s0)
          else if String.prefix "null" s0 then Some (VNone, drop 4 s0)
          else if Ascii.eqb c "-"%char then
            match s' with
            | String d _ =>
                match digit d with
                | Some _ => let (n, rest) := read_digits s' 0 in Some (VInt (- n), rest)
                | None => None
                end
            | EmptyString => None
            end
          else
            match digit c with
            | Some _ => let (n, rest) := read_digits s0 0 in Some (VInt n, rest)
            | None => None
            end
      end
  end
with read_members (fuel : nat) (s : string) (acc : dict) : option (pyval * string) :=
  match fuel with
  | O => None
  | S fuel' =>
      match skip_ws s with
      | String c s' =>
          if Ascii.eqb c dquote then
            match read_string s' with
            | Some (key, rest) =>
                match skip_ws rest with
                | String colon rest' =>
                    if Ascii.eqb colon ":"%char then
                      match read_value fuel' rest' with
                      | Some (v, rest'') =>
                          match skip_ws rest'' with
                          | String sep tail =>
                              if Ascii.eqb sep ","%char then
                                read_members fuel' tail (<[key := v]> acc)
                              else if Ascii.eqb sep "}"%char then
                                Some (VDict (<[key := v]> acc), tail)
                              else None
                          | EmptyString => None
                          end
                      | None => None
                      end
                    else None
                | EmptyString => None
                end
            | None => None
            end
          else None
      | EmptyString => None
      end
  end
with read_elements (fuel : nat) (s : string) (acc : list pyval) : option (pyval * string) :=
  match fuel with
  | O => None
  | S fuel' =>
      match read_value fuel' s with
      | Some (v, rest) =>
          match skip_ws rest with
          | String sep tail =>
              if Ascii.eqb sep ","%char then read_elements fuel' tail (acc ++ [v])
              else if Ascii.eqb sep "]"%char then Some (VList (acc ++ [v]), tail)
              else None
          | EmptyString => None
          end
      | None => None
      end
  end.

Definition loads (s : string) : outcome pyval :=
  match read_value (2 * String.length s + 2) s with
  | Some (v, rest) =>
      match skip_ws rest with
      | EmptyString => Ret v
      | _ => Raise (PyExn "JSONDecodeError" "trailing characters")
      end
  | None => Raise (PyExn "JSONDecodeError" "unexpected character")
  end.

End Json.

Definition json_reader : Orjson := {| loads := Json.loads |}.

(** An engine that gives the same two answers to every call. *)
Definition canned_engine (plan : outcome (bool * string))
    (exec : outcome (bool * pyval * dict)) : Engine Q :=
  {| dry_plan := fun _ _ _ _ _ => plan;
     execute_sql := fun _ _ _ _ _ _ => exec |}.

(** Replies are plain strings; cleaning leaves them as they are and quoting
    is the given function. *)
Definition canned_core (quote : pyval -> outcome (string * string))
    : CoreEngine string :=
  {| clean_generation_result := fun raw => Ret raw;
     add_quotes := quote |}.

Definition sql_envelope : string :=
  "{" +:+ quoted "sql" +:+ ": " +:+ quoted "SELECT 1" +:+ "}".

(** A JSON object without the key that [run] reads. *)
Definition query_envelope : string :=
  "{" +:+ quoted "query" +:+ ": " +:+ quoted "SELECT 1" +:+ "}".

Definition orders_sql : string := "SELECT * FROM orders".
Definition orders_quoted : string := "SELECT * FROM " +:+ quoted "orders".

(** Quoting that succeeds on [orders_sql] and rejects everything else. *)
Definition quote_orders (v : pyval) : outcome (string * string) :=
  if eq_str v orders_sql then Ret (orders_quoted, "")
  else Ret ("", "unterminated string literal").

Definition unbalanced_sql : string := "SELECT 'abc FROM orders".

Definition timeout_message : string := "Request timed out: 30 seconds".

(** The engine accepts every query and reports the correlation id abc. *)
Definition accepting_engine : Engine Q :=
  canned_engine (Ret (true, ""))
    (Ret (true, VNone, mkdict [("correlation_id", VStr "abc")])).

(** Every call of the engine times out. *)
Definition slow_engine : Engine Q :=
  canned_engine (Ret (false, timeout_message))
    (Ret (false, VNone,
          mkdict [("error_message", VStr timeout_message);
                  ("correlation_id", VStr "")])).

(** The engine fails with an empty error message and no correlation id. *)
Definition silent_engine : Engine Q :=
  canned_engine (Ret (false, ""))
    (Ret (false, VNone, mkdict [("error_message", VStr "")])).

(** Every call of the engine raises. *)
Definition broken_engine : Engine Q :=
  canned_engine (Raise (PyExn "ClientConnectionError" "connection reset"))
    (Raise (PyExn "ClientConnectionError" "connection reset")).

(** Every call of the engine is cancelled while it is awaited. *)
Definition cancelled_engine : Engine Q :=
  canned_engine (RaiseBase (PyExn "CancelledError" ""))
    (RaiseBase (PyExn "CancelledError" "")).

Definition core : CoreEngine string := canned_core quote_orders.

(** The classifier and the component over the doubles, for a given engine. *)
Abbreviation classify engine :=
  (@SQLGenPostProcessor._classify_generation_result Q string engine core).
Abbreviation run_with engine :=
  (@SQLGenPostProcessor.run Q string engine core json_reader).

(** A service whose cache holds one finished event, stored at timer reading 0
    with the default time to live of 120. *)
Definition stored_event : InstructionsService.Event :=
  InstructionsService.mkEvent "evt-1" InstructionsService.finished None None
    InstructionsService.ui.

Definition sample_service : InstructionsService.service :=
  InstructionsService.mkService
    (InstructionsService.mkTTLCache 1000000 120
       {["evt-1" := (stored_event, 120%Z)]} ["evt-1"]).

End Doubles.

(** ** Sample data for the helpers *)

Module Samples.
Import SqlUtils InstructionsIndexing.

Inductive ChatRole : Type := USER | ASSISTANT.

Record ChatMessage : Type := mkChatMessage {
  role : ChatRole;
  content : pyval
}.

(** Messages that record their role and content. *)
Definition plain_chat : ChatMessages ChatMessage :=
  {| from_user := fun v => Ret (mkChatMessage USER v);
     from_assistant := fun v => Ret (mkChatMessage ASSISTANT v) |}.

Definition first_history : history :=
  HistoryModel (mkAskHistory "How many orders?" "SELECT COUNT(*) FROM orders").

Definition second_history : history :=
  HistoryDict (mkdict [("question", VStr "And customers?");
                       ("sql", VStr "SELECT COUNT(*) FROM customers")]).

(** A dict history that has neither of the two keys. *)
Definition empty_history : history := HistoryDict ∅.

(** A dict history with a question and no SQL. *)
Definition question_only_history : history :=
  HistoryDict (mkdict [("question", VStr "And customers?")]).

Definition default_instruction : Instruction :=
  mkInstruction "i1" "Use UTC" ["a"; "b"] true sql.

Definition asked_instruction : Instruction :=
  mkInstruction "i2" "Round to two digits" ["revenue?"; "profit?"] false chart.

(** Neither a default nor attached to a question. *)
Definition orphan_instruction : Instruction :=
  mkInstruction "i3" "Never used" [] false answer.

(** The engine fails and reports a list of errors instead of a message. *)
Definition listing_engine : Engine Q :=
  Doubles.canned_engine (Ret (false, "plan rejected"))
    (Ret (false, VNone,
          mkdict [("error_message", VList [VStr "syntax error"]);
                  ("correlation_id", VStr "c-7")])).

(** The engine fails without any message. *)
Definition mute_engine : Engine Q :=
  Doubles.canned_engine (Ret (false, "plan rejected"))
    (Ret (false, VNone, mkdict [("correlation_id", VStr "c-8")])).

End Samples.

(** * Properties *)

Module SQLGenPostProcessorFacts.
Import SQLGenPostProcessor.

(** Exactly one of the two outputs is populated. *)
Definition exactly_one_populated (out : output) : Prop :=
  (valid_generation_result out ≠ ∅ ∧ invalid_generation_result out = ∅) ∨
  (valid_generation_result out = ∅ ∧ invalid_generation_result out ≠ ∅).

(** The call returns an empty valid result and an invalid result whose [type]
    entry is [ty]. *)
Definition invalid_of_type {time : Type} (call : M time (dict * dict))
    (ty : string) : Prop :=
  ∃ invalid : dict,
    call.1 = Ret (∅, invalid) ∧ invalid !! "type" = Some (VStr ty).

Section Facts.
Context {time reply : Type}.
Context {engine : Engine time} {core_engine : CoreEngine reply}
  {orjson : Orjson}.
Local Open Scope eff_scope.

(** What [run] does with a candidate once normalization has produced it. *)
Definition classify_and_pack (candidate : pyval) (timeout : time)
    (project_id : option string) (use_dry_plan allow_dry_plan_fallback : bool)
    (data_source : string) (allow_data_preview : bool) : M time output :=
  let* (valid, invalid) :=
    _classify_generation_result candidate timeout project_id use_dry_plan
      allow_dry_plan_fallback data_source allow_data_preview in
  ret (Output valid invalid).

Implicit Types (timeout : time) (project_id : option string).
Implicit Types (use_dry_plan allow_dry_plan_fallback allow_data_preview : bool).
Implicit Types (data_source quoted_sql : string) (candidate : pyval).

(** *** Equations of the monad *)

Lemma bind_ret {A B} (a : A) (k : A -> M time B) : bind (ret a) k = k a.
Proof. unfold bind, ret. destruct (k a); reflexivity. Qed.

Lemma bind_lift_Ret {A B} (a : A) (k : A -> M time B) :
  bind (lift (Ret a)) k = k a.
Proof. apply bind_ret. Qed.

Lemma bind_lift_Raise {A B} (e : pyexn) (k : A -> M time B) :
  bind (lift (Raise e)) k = raise e.
Proof. reflexivity. Qed.

Lemma bind_outcome {A B} (m : M time A) (k : A -> M time B) (a : A) tr :
  m = (Ret a, tr) -> (bind m k).1 = (k a).1.
Proof. intros ->. unfold bind. destruct (k a); reflexivity. Qed.

Lemma try_except_returns {A} (m : M time A) h (a : A) :
  m.1 = Ret a -> try_except m h = m.
Proof. destruct m as [[a'|e|e] tr]; simpl; discriminate || reflexivity. Qed.

Lemma try_except_handles {A} (m : M time A) h (e : pyexn) :
  m.1 = Raise e -> (try_except m h).1 = (h e).1.
Proof.
  destruct m as [[a'|e'|e'] tr]; simpl; [discriminate | | discriminate].
  intros [= ->]. destruct (h e); reflexivity.
Qed.

(** *** The quoting failure *)

Lemma classify_quote_error candidate quoted_sql error_message timeout project_id
    use_dry_plan allow_dry_plan_fallback data_source allow_data_preview :
  add_quotes candidate = Ret (quoted_sql, error_message) ->
  error_message ≠ "" ->
  _classify_generation_result candidate timeout project_id use_dry_plan
    allow_dry_plan_fallback data_source allow_data_preview =
  (Ret (∅, mkdict [("sql", candidate); ("type", VStr "ADD_QUOTES");
                   ("error", VStr error_message)]),
   [SessionOpened; SessionClosed]).
Proof.
  intros Hq Herr. unfold _classify_generation_result.
  rewrite Hq, bind_lift_Ret.
  apply String.eqb_neq in Herr. rewrite Herr. reflexivity.
Qed.

(** C1: when the quoting transform reports a non-empty error, the classifier
    returns an empty valid result and an invalid result of type ADD_QUOTES
    whose [sql] is the unquoted candidate and whose [error] is the quoting
    error; no engine operation is invoked.  The invalid result has no
    [correlation_id] entry at all, so that entry is not the empty string. *)
Theorem quoting_failure_short_circuits candidate quoted_sql error_message
    timeout project_id use_dry_plan allow_dry_plan_fallback data_source
    allow_data_preview :
  add_quotes candidate = Ret (quoted_sql, error_message) ->
  error_message ≠ "" ->
  let call :=
    _classify_generation_result candidate timeout project_id use_dry_plan
      allow_dry_plan_fallback data_source allow_data_preview in
  ∃ invalid : dict,
    call.1 = Ret (∅, invalid) ∧
    invalid !! "sql" = Some candidate ∧
    invalid !! "type" = Some (VStr "ADD_QUOTES") ∧
    invalid !! "error" = Some (VStr error_message) ∧
    invalid !! "correlation_id" = None ∧
    engine_calls call = [].
Proof.
  intros Hq Herr call. subst call.
  rewrite (classify_quote_error _ _ _ _ _ _ _ _ _ Hq Herr).
  eexists. split; [reflexivity |].
  unfold mkdict; simpl. by simplify_map_eq.
Qed.

(** *** The three strategies *)

(** With [use_dry_plan] set, the classifier makes one [dry_plan] call, whatever
    [allow_data_preview] is. *)
Lemma classify_dry_plan candidate quoted_sql timeout project_id
    allow_dry_plan_fallback data_source allow_data_preview :
  add_quotes candidate = Ret (quoted_sql, "") ->
  _classify_generation_result candidate timeout project_id true
    allow_dry_plan_fallback data_source allow_data_preview =
  (match dry_plan Session quoted_sql data_source timeout
           allow_dry_plan_fallback with
   | Ret (true, _) =>
       Ret (mkdict [("sql", VStr quoted_sql); ("correlation_id", VStr "")], ∅)
   | Ret (false, error_message) =>
       Ret (∅, mkdict [("sql", VStr quoted_sql);
                       ("type", VStr (if String.prefix "Request timed out" error_message
                                      then "TIME_OUT" else "DRY_PLAN"));
                       ("error", VStr error_message);
                       ("correlation_id", VStr "")])
   | Raise e => Raise e
   | RaiseBase e => RaiseBase e
   end,
   [SessionOpened;
    DryPlanCalled Session quoted_sql data_source timeout allow_dry_plan_fallback;
    SessionClosed]).
Proof.
  intros Hq. unfold _classify_generation_result, call_dry_plan.
  rewrite Hq, bind_lift_Ret. unfold async_with_session. simpl.
  destruct (dry_plan _ _ _ _ _) as [[[] msg]|e|e]; reflexivity.
Qed.

(** Without [use_dry_plan], the classifier makes one [execute_sql] call with
    row limit 1; it is a dry run exactly when no data preview is allowed. *)
Lemma classify_execute candidate quoted_sql timeout project_id
    allow_dry_plan_fallback data_source allow_data_preview :
  add_quotes candidate = Ret (quoted_sql, "") ->
  _classify_generation_result candidate timeout project_id false
    allow_dry_plan_fallback data_source allow_data_preview =
  (match execute_sql quoted_sql Session project_id timeout 1
           (negb allow_data_preview) with
   | Ret (true, _, addition) =>
       Ret (mkdict [("sql", VStr quoted_sql);
                    ("correlation_id", dict_get addition "correlation_id" (VStr ""))],
            ∅)
   | Ret (false, _, addition) =>
       let error_message := dict_get addition "error_message" (VStr "") in
       match startswith error_message "Request timed out" with
       | Ret timed_out =>
           Ret (∅, mkdict [("sql", VStr quoted_sql);
                           ("type", VStr (if timed_out then "TIME_OUT"
                                          else if allow_data_preview then
                                            if eq_str error_message ""
                                            then "PREVIEW_EMPTY_DATA"
                                            else "PREVIEW_FAILED"
                                          else "DRY_RUN"));
                           ("error", error_message);
                           ("correlation_id",
                            dict_get addition "correlation_id" (VStr ""))])
       | Raise e => Raise e
       | RaiseBase e => RaiseBase e
       end
   | Raise e => Raise e
   | RaiseBase e => RaiseBase e
   end,
   [SessionOpened;
    ExecuteSqlCalled quoted_sql Session project_id timeout 1
      (negb allow_data_preview);
    SessionClosed]).
Proof.
  intros Hq. unfold _classify_generation_result, call_execute_sql.
  rewrite Hq, bind_lift_Ret. unfold async_with_session. simpl.
  destruct allow_data_preview; simpl;
    destruct (execute_sql _ _ _ _ _ _) as [[[[] rows] addition]|e|e]; simpl;
    try reflexivity;
    destruct (startswith _ _) as [[]|e|e]; reflexivity.
Qed.

(** Every result built after a successful quoting stores a [correlation_id]
    entry, be it valid or invalid. *)
Lemma engine_results_store_correlation_id candidate quoted_sql timeout
    project_id use_dry_plan allow_dry_plan_fallback data_source
    allow_data_preview valid invalid :
  add_quotes candidate = Ret (quoted_sql, "") ->
  (_classify_generation_result candidate timeout project_id use_dry_plan
     allow_dry_plan_fallback data_source allow_data_preview).1 =
    Ret (valid, invalid) ->
  is_Some ((valid ∪ invalid) !! "correlation_id").
Proof.
  intros Hq. destruct use_dry_plan.
  - rewrite (classify_dry_plan _ _ _ _ _ _ _ Hq). simpl.
    destruct (dry_plan _ _ _ _ _) as [[[] msg]|e|e];
      intros [= <- <-] || discriminate;
      unfold mkdict; simpl; rewrite lookup_union; by simplify_map_eq.
  - rewrite (classify_execute _ _ _ _ _ _ _ Hq). simpl.
    destruct (execute_sql _ _ _ _ _ _) as [[[[] rows] addition]|e|e]; simpl;
      [| destruct (startswith _ _); simpl | |];
      intros [= <- <-] || discriminate;
      unfold mkdict; simpl; rewrite lookup_union; by simplify_map_eq.
Qed.

(** *** The failure policy of [run] *)

Lemma run_body_raises_iff replies timeout project_id use_dry_plan
    allow_dry_plan_fallback data_source allow_data_preview e :
  (run_body replies timeout project_id use_dry_plan allow_dry_plan_fallback
     data_source allow_data_preview).1 = Raise e <->
  ((normalize (time:=time) replies).1 = Raise e ∨
   ∃ candidate (tr : list (event time)),
     normalize replies = (Ret candidate, tr) ∧
     (_classify_generation_result candidate timeout project_id use_dry_plan
        allow_dry_plan_fallback data_source allow_data_preview).1 = Raise e).
Proof.
  unfold run_body.
  destruct (normalize (time:=time) replies) as [[candidate|e'|e'] tr] eqn:Hn.
  - erewrite bind_outcome by reflexivity.
    destruct (_classify_generation_result _ _ _ _ _ _ _)
      as [[[v i]|e'|e'] tr'] eqn:Hc; simpl.
    + split; [discriminate |].
      intros [Hl | (c & tr0 & Heq & Hr)]; [discriminate |].
      simplify_eq. rewrite Hc in Hr. discriminate.
    + split.
      * intros [= ->]. right. exists candidate, tr. by rewrite Hc.
      * intros [Hl | (c & tr0 & Heq & Hr)]; [discriminate |].
        simplify_eq. rewrite Hc in Hr. simpl in Hr. congruence.
    + split; [discriminate |].
      intros [Hl | (c & tr0 & Heq & Hr)]; [discriminate |].
      simplify_eq. rewrite Hc in Hr. discriminate.
  - simpl. split.
    + intros [= ->]. by left.
    + intros [Hl | (c & tr0 & Heq & Hr)]; [congruence | discriminate].
  - simpl. split; [discriminate |].
    intros [Hl | (c & tr0 & Heq & Hr)]; discriminate.
Qed.

(** No instance of [Exception] leaves [run]. *)
Lemma run_raises_no_exception replies timeout project_id use_dry_plan
    allow_dry_plan_fallback data_source allow_data_preview e :
  (run replies timeout project_id use_dry_plan allow_dry_plan_fallback
     data_source allow_data_preview).1 ≠ Raise e.
Proof.
  unfold run.
  destruct (run_body _ _ _ _ _ _ _) as [[out|e'|e'] tr]; simpl; discriminate.
Qed.

(** An exception that is not an instance of [Exception] passes through the
    handler of [run]: nothing is logged and the caller receives it. *)
Lemma run_passes_base_exception replies timeout project_id use_dry_plan
    allow_dry_plan_fallback data_source allow_data_preview e :
  (run_body replies timeout project_id use_dry_plan allow_dry_plan_fallback
     data_source allow_data_preview).1 = RaiseBase e ->
  run replies timeout project_id use_dry_plan allow_dry_plan_fallback
    data_source allow_data_preview =
  run_body replies timeout project_id use_dry_plan allow_dry_plan_fallback
    data_source allow_data_preview.
Proof.
  unfold run.
  destruct (run_body _ _ _ _ _ _ _) as [[out|e'|e'] tr]; simpl;
    discriminate || reflexivity.
Qed.

(** C2, as amended: whenever normalization or classification raises an
    exception that is an instance of [Exception], [run] does not raise: it
    returns the result whose two mappings are empty. *)
Theorem run_converts_exceptions replies timeout project_id use_dry_plan
    allow_dry_plan_fallback data_source allow_data_preview e :
  ((normalize (time:=time) replies).1 = Raise e ∨
   ∃ candidate (tr : list (event time)),
     normalize replies = (Ret candidate, tr) ∧
     (_classify_generation_result candidate timeout project_id use_dry_plan
        allow_dry_plan_fallback data_source allow_data_preview).1 = Raise e) ->
  (run replies timeout project_id use_dry_plan allow_dry_plan_fallback
     data_source allow_data_preview).1 = Ret (Output ∅ ∅).
Proof.
  intros Hraise. apply run_body_raises_iff in Hraise.
  unfold run. by rewrite (try_except_handles _ _ e).
Qed.

(** The faults named by the failure policy do raise in the body of [run]. *)

Lemma malformed_json_raises (reply0 : reply) rest cleaned e :
  clean_generation_result reply0 = Ret cleaned ->
  String.prefix "{" cleaned = true ->
  loads cleaned = Raise e ->
  (normalize (time:=time) (reply0 :: rest)).1 = Raise e.
Proof.
  intros Hclean Hbrace Hloads. unfold normalize.
  change (first (reply0 :: rest)) with (Ret reply0).
  by rewrite bind_lift_Ret, Hclean, bind_lift_Ret, Hbrace, Hloads.
Qed.

Lemma missing_sql_key_raises (reply0 : reply) rest cleaned (object : dict) :
  clean_generation_result reply0 = Ret cleaned ->
  String.prefix "{" cleaned = true ->
  loads cleaned = Ret (VDict object) ->
  object !! "sql" = None ->
  (normalize (time:=time) (reply0 :: rest)).1 = Raise (PyExn "KeyError" "'sql'").
Proof.
  intros Hclean Hbrace Hloads Hsql. unfold normalize.
  change (first (reply0 :: rest)) with (Ret reply0).
  rewrite bind_lift_Ret, Hclean, bind_lift_Ret, Hbrace, Hloads, bind_lift_Ret.
  simpl. by rewrite Hsql.
Qed.

Lemma engine_fault_raises candidate quoted_sql timeout project_id use_dry_plan
    allow_dry_plan_fallback data_source allow_data_preview e :
  add_quotes candidate = Ret (quoted_sql, "") ->
  (if use_dry_plan
   then dry_plan Session quoted_sql data_source timeout
          allow_dry_plan_fallback = Raise e
   else execute_sql quoted_sql Session project_id timeout 1
          (negb allow_data_preview) = Raise e) ->
  (_classify_generation_result candidate timeout project_id use_dry_plan
     allow_dry_plan_fallback data_source allow_data_preview).1 = Raise e.
Proof.
  intros Hq Hfault. destruct use_dry_plan.
  - by rewrite (classify_dry_plan _ _ _ _ _ _ _ Hq), Hfault.
  - by rewrite (classify_execute _ _ _ _ _ _ _ Hq), Hfault.
Qed.

(** *** Exactly one result is populated *)

Lemma classify_exactly_one candidate timeout project_id use_dry_plan
    allow_dry_plan_fallback data_source allow_data_preview valid invalid :
  (_classify_generation_result candidate timeout project_id use_dry_plan
     allow_dry_plan_fallback data_source allow_data_preview).1 =
    Ret (valid, invalid) ->
  exactly_one_populated (Output valid invalid).
Proof.
  unfold _classify_generation_result, call_dry_plan, call_execute_sql,
    async_with_session, exactly_one_populated.
  destruct (add_quotes candidate) as [[quoted_sql error_message]|e|e]; simpl;
    [| discriminate | discriminate].
  destruct (String.eqb error_message ""); simpl.
  - destruct use_dry_plan; [| destruct (negb allow_data_preview)]; simpl.
    + destruct (dry_plan _ _ _ _ _) as [[[] msg]|e|e]; simpl;
        intros [= <- <-] || discriminate.
      * left. split; [apply insert_non_empty | reflexivity].
      * right. split; [reflexivity | apply insert_non_empty].
    + destruct (execute_sql _ _ _ _ _ _) as [[[[] rows] addition]|e|e]; simpl;
        [| destruct (startswith _ _); simpl | |];
        intros [= <- <-] || discriminate.
      * left. split; [apply insert_non_empty | reflexivity].
      * right. split; [reflexivity | apply insert_non_empty].
    + destruct (execute_sql _ _ _ _ _ _) as [[[[] rows] addition]|e|e]; simpl;
        [| destruct (startswith _ _); simpl | |];
        intros [= <- <-] || discriminate.
      * left. split; [apply insert_non_empty | reflexivity].
      * right. split; [reflexivity | apply insert_non_empty].
  - intros [= <- <-]. right. split; [reflexivity | apply insert_non_empty].
Qed.

(** C3: when the body of [run] completes without an exception, [run] returns
    its result and exactly one of the two mappings is populated; [run] returns
    two empty mappings only when the body raised. *)
Theorem run_populates_exactly_one replies timeout project_id use_dry_plan
    allow_dry_plan_fallback data_source allow_data_preview :
  let body :=
    run_body replies timeout project_id use_dry_plan allow_dry_plan_fallback
      data_source allow_data_preview in
  let call :=
    run replies timeout project_id use_dry_plan allow_dry_plan_fallback
      data_source allow_data_preview in
  (∀ out, body.1 = Ret out -> call.1 = Ret out ∧ exactly_one_populated out) ∧
  (∀ out, call.1 = Ret out ->
     valid_generation_result out = ∅ -> invalid_generation_result out = ∅ ->
     ∃ e, body.1 = Raise e).
Proof.
  intros body call.
  assert (Hbody : ∀ out, body.1 = Ret out -> exactly_one_populated out).
  { intros out. subst body. unfold run_body.
    destruct (normalize (time:=time) replies) as [[candidate|e|e] tr];
      [| discriminate | discriminate].
    erewrite bind_outcome by reflexivity.
    destruct (_classify_generation_result _ _ _ _ _ _ _)
      as [[[v i]|e|e] tr'] eqn:Hc; simpl; [| discriminate | discriminate].
    intros [= <-]. eapply classify_exactly_one. by rewrite Hc. }
  split.
  - intros out Hout. split; [| by apply Hbody].
    subst call. unfold run. by rewrite (try_except_returns _ _ out).
  - intros out Hcall Hv Hi.
    destruct (body.1) as [out'|e|e] eqn:Hb; [| by exists e |].
    + exfalso. subst call. unfold run in Hcall.
      rewrite (try_except_returns _ _ out') in Hcall by exact Hb.
      fold body in Hcall. rewrite Hb in Hcall. injection Hcall as ->.
      destruct (Hbody _ eq_refl) as [[Hne _] | [_ Hne]]; contradiction.
    + exfalso. subst call.
      rewrite (run_passes_base_exception _ _ _ _ _ _ _ e) in Hcall
        by exact Hb.
      fold body in Hcall. rewrite Hb in Hcall. discriminate.
Qed.

Lemma type_of_invalid (sql : pyval) (ty : string) (err corr : pyval) :
  mkdict [("sql", sql); ("type", VStr ty); ("error", err);
          ("correlation_id", corr)] !! "type" = Some (VStr ty).
Proof. unfold mkdict; simpl. by simplify_map_eq. Qed.

(** C4: an engine failure whose message begins with "Request timed out" is
    classified TIME_OUT in each of the three modes: dry plan (whatever
    [allow_data_preview] is), dry run and live preview. *)
Theorem timeout_prefix_takes_precedence candidate quoted_sql timeout project_id
    allow_dry_plan_fallback data_source error_message :
  add_quotes candidate = Ret (quoted_sql, "") ->
  String.prefix "Request timed out" error_message = true ->
  (∀ allow_data_preview,
     dry_plan Session quoted_sql data_source timeout allow_dry_plan_fallback =
       Ret (false, error_message) ->
     invalid_of_type
       (_classify_generation_result candidate timeout project_id true
          allow_dry_plan_fallback data_source allow_data_preview)
       "TIME_OUT") ∧
  (∀ rows addition,
     execute_sql quoted_sql Session project_id timeout 1 true =
       Ret (false, rows, addition) ->
     dict_get addition "error_message" (VStr "") = VStr error_message ->
     invalid_of_type
       (_classify_generation_result candidate timeout project_id false
          allow_dry_plan_fallback data_source false)
       "TIME_OUT") ∧
  (∀ rows addition,
     execute_sql quoted_sql Session project_id timeout 1 false =
       Ret (false, rows, addition) ->
     dict_get addition "error_message" (VStr "") = VStr error_message ->
     invalid_of_type
       (_classify_generation_result candidate timeout project_id false
          allow_dry_plan_fallback data_source true)
       "TIME_OUT").
Proof.
  intros Hq Hprefix. unfold invalid_of_type. repeat split.
  - intros allow_data_preview Hplan.
    rewrite (classify_dry_plan _ _ _ _ _ _ _ Hq), Hplan, Hprefix.
    eexists. split; [reflexivity | apply type_of_invalid].
  - intros rows addition Hexec Hmsg.
    rewrite (classify_execute _ _ _ _ _ _ _ Hq). simpl.
    rewrite Hexec, Hmsg. simpl. rewrite Hprefix.
    eexists. split; [reflexivity | apply type_of_invalid].
  - intros rows addition Hexec Hmsg.
    rewrite (classify_execute _ _ _ _ _ _ _ Hq). simpl.
    rewrite Hexec, Hmsg. simpl. rewrite Hprefix.
    eexists. split; [reflexivity | apply type_of_invalid].
Qed.

(** C5: in live preview mode a failed execution is classified TIME_OUT when
    its error message starts with "Request timed out", else PREVIEW_EMPTY_DATA
    when the message is empty, else PREVIEW_FAILED; the message is carried in
    the [error] entry. *)
Theorem live_preview_failure_type candidate quoted_sql timeout project_id
    allow_dry_plan_fallback data_source rows addition error_message :
  add_quotes candidate = Ret (quoted_sql, "") ->
  execute_sql quoted_sql Session project_id timeout 1 false =
    Ret (false, rows, addition) ->
  dict_get addition "error_message" (VStr "") = VStr error_message ->
  ∃ invalid : dict,
    (_classify_generation_result candidate timeout project_id false
       allow_dry_plan_fallback data_source true).1 = Ret (∅, invalid) ∧
    invalid !! "type" =
      Some (VStr (if String.prefix "Request timed out" error_message
                  then "TIME_OUT"
                  else if String.eqb error_message "" then "PREVIEW_EMPTY_DATA"
                  else "PREVIEW_FAILED")) ∧
    invalid !! "error" = Some (VStr error_message).
Proof.
  intros Hq Hexec Hmsg.
  rewrite (classify_execute _ _ _ _ _ _ _ Hq). simpl.
  rewrite Hexec, Hmsg. simpl.
  eexists. split; [reflexivity |]. split.
  - apply type_of_invalid.
  - unfold mkdict; simpl. by simplify_map_eq.
Qed.

(** C6: when the engine reports success the result is valid and carries the
    quoted SQL; its correlation id is the empty string in dry-plan mode and
    the [correlation_id] entry of the engine's addition (the empty string
    when there is none) in dry-run and live-preview mode. *)
Theorem engine_success_is_valid candidate quoted_sql timeout project_id
    allow_dry_plan_fallback data_source :
  add_quotes candidate = Ret (quoted_sql, "") ->
  (∀ allow_data_preview error_message,
     dry_plan Session quoted_sql data_source timeout allow_dry_plan_fallback =
       Ret (true, error_message) ->
     (_classify_generation_result candidate timeout project_id true
        allow_dry_plan_fallback data_source allow_data_preview).1 =
     Ret (mkdict [("sql", VStr quoted_sql); ("correlation_id", VStr "")], ∅)) ∧
  (∀ rows addition,
     execute_sql quoted_sql Session project_id timeout 1 true =
       Ret (true, rows, addition) ->
     (_classify_generation_result candidate timeout project_id false
        allow_dry_plan_fallback data_source false).1 =
     Ret (mkdict [("sql", VStr quoted_sql);
                  ("correlation_id",
                   default (VStr "") (addition !! "correlation_id"))], ∅)) ∧
  (∀ rows addition,
     execute_sql quoted_sql Session project_id timeout 1 false =
       Ret (true, rows, addition) ->
     (_classify_generation_result candidate timeout project_id false
        allow_dry_plan_fallback data_source true).1 =
     Ret (mkdict [("sql", VStr quoted_sql);
                  ("correlation_id",
                   default (VStr "") (addition !! "correlation_id"))], ∅)).
Proof.
  intros Hq. repeat split.
  - intros allow_data_preview error_message Hplan.
    by rewrite (classify_dry_plan _ _ _ _ _ _ _ Hq), Hplan.
  - intros rows addition Hexec.
    rewrite (classify_execute _ _ _ _ _ _ _ Hq). simpl. rewrite Hexec.
    unfold dict_get. by destruct (addition !! "correlation_id").
  - intros rows addition Hexec.
    rewrite (classify_execute _ _ _ _ _ _ _ Hq). simpl. rewrite Hexec.
    unfold dict_get. by destruct (addition !! "correlation_id").
Qed.

(** C7: once quoting has succeeded the engine is called exactly once: with
    [use_dry_plan] it is [dry_plan], whatever [allow_data_preview] is; without
    [use_dry_plan] it is [execute_sql] with row limit 1, as a dry run when
    [allow_data_preview] is false and as a real execution when it is true. *)
Theorem strategy_priority candidate quoted_sql timeout project_id
    allow_dry_plan_fallback data_source :
  add_quotes candidate = Ret (quoted_sql, "") ->
  (∀ allow_data_preview,
     engine_calls
       (_classify_generation_result candidate timeout project_id true
          allow_dry_plan_fallback data_source allow_data_preview) =
     [DryPlanCalled Session quoted_sql data_source timeout
        allow_dry_plan_fallback]) ∧
  engine_calls
    (_classify_generation_result candidate timeout project_id false
       allow_dry_plan_fallback data_source false) =
  [ExecuteSqlCalled quoted_sql Session project_id timeout 1 true] ∧
  engine_calls
    (_classify_generation_result candidate timeout project_id false
       allow_dry_plan_fallback data_source true) =
  [ExecuteSqlCalled quoted_sql Session project_id timeout 1 false].
Proof.
  intros Hq. repeat split.
  - intros allow_data_preview.
    by rewrite (classify_dry_plan _ _ _ _ _ _ _ Hq).
  - by rewrite (classify_execute _ _ _ _ _ _ _ Hq).
  - by rewrite (classify_execute _ _ _ _ _ _ _ Hq).
Qed.

(** *** Normalization *)

Lemma run_body_of_candidate candidate replies timeout project_id use_dry_plan
    allow_dry_plan_fallback data_source allow_data_preview :
  normalize (time:=time) replies = ret candidate ->
  run_body replies timeout project_id use_dry_plan allow_dry_plan_fallback
    data_source allow_data_preview =
  classify_and_pack candidate timeout project_id use_dry_plan
    allow_dry_plan_fallback data_source allow_data_preview.
Proof. intros Hn. unfold run_body. by rewrite Hn, bind_ret. Qed.

Lemma normalize_envelope (reply0 : reply) (rest : list reply) (cleaned : string) :
  clean_generation_result reply0 = Ret cleaned ->
  String.prefix "{" cleaned = true ->
  normalize (time:=time) (reply0 :: rest) =
  (let* parsed := lift (loads cleaned) in lift (getitem parsed "sql")).
Proof.
  intros Hclean Hbrace. unfold normalize.
  change (first (reply0 :: rest)) with (Ret reply0).
  rewrite bind_lift_Ret, Hclean, bind_lift_Ret. by rewrite Hbrace.
Qed.

Lemma normalize_plain (reply0 : reply) (rest : list reply) (cleaned : string) :
  clean_generation_result reply0 = Ret cleaned ->
  String.prefix "{" cleaned = false ->
  normalize (time:=time) (reply0 :: rest) = ret (VStr cleaned).
Proof.
  intros Hclean Hbrace. unfold normalize.
  change (first (reply0 :: rest)) with (Ret reply0).
  rewrite bind_lift_Ret, Hclean, bind_lift_Ret. by rewrite Hbrace.
Qed.

(** C8: a cleaned text that begins with an opening brace is parsed as JSON
    and the value of its [sql] key is the candidate that is classified; any
    other cleaned text is the candidate itself.  The envelope around
    SELECT 1 is unwrapped to SELECT 1. *)
Theorem normalize_unwraps_json (reply0 : reply) (rest : list reply)
    (cleaned : string) timeout project_id use_dry_plan allow_dry_plan_fallback
    data_source allow_data_preview :
  clean_generation_result reply0 = Ret cleaned ->
  let classified candidate :=
    classify_and_pack candidate timeout project_id use_dry_plan
      allow_dry_plan_fallback data_source allow_data_preview in
  let body :=
    run_body (reply0 :: rest) timeout project_id use_dry_plan
      allow_dry_plan_fallback data_source allow_data_preview in
  (String.prefix "{" cleaned = true ->
   ∀ (object : dict) (sql : pyval),
     loads cleaned = Ret (VDict object) -> object !! "sql" = Some sql ->
     normalize (time:=time) (reply0 :: rest) = ret sql ∧
     body = classified sql) ∧
  (String.prefix "{" cleaned = false ->
   normalize (time:=time) (reply0 :: rest) = ret (VStr cleaned) ∧
   body = classified (VStr cleaned)) ∧
  (cleaned = Doubles.sql_envelope ->
   loads Doubles.sql_envelope = Ret (VDict {["sql" := VStr "SELECT 1"]}) ->
   normalize (time:=time) (reply0 :: rest) = ret (VStr "SELECT 1") ∧
   body = classified (VStr "SELECT 1")).
Proof.
  intros Hclean classified body.
  assert (Hjson : String.prefix "{" cleaned = true ->
    ∀ (object : dict) (sql : pyval),
      loads cleaned = Ret (VDict object) -> object !! "sql" = Some sql ->
      normalize (time:=time) (reply0 :: rest) = ret sql ∧
      body = classified sql).
  { intros Hbrace object sql Hloads Hsql.
    assert (Hn : normalize (time:=time) (reply0 :: rest) = ret sql).
    { rewrite (normalize_envelope _ _ _ Hclean Hbrace), Hloads, bind_lift_Ret.
      simpl. by rewrite Hsql. }
    split; [exact Hn | by apply run_body_of_candidate]. }
  split; [exact Hjson | split].
  - intros Hbrace.
    pose proof (normalize_plain _ rest _ Hclean Hbrace) as Hn.
    split; [exact Hn | by apply run_body_of_candidate].
  - intros -> Hloads. eapply Hjson; [reflexivity | exact Hloads |].
    apply lookup_singleton_eq.
Qed.

(** C9: [run] reads element 0 of the replies only: two reply sequences with
    the same element 0 give the same result (and cause the same events)
    under the same configuration and collaborators. *)
Theorem run_reads_first_reply_only (replies1 replies2 : list reply)
    (reply0 : reply) timeout project_id use_dry_plan allow_dry_plan_fallback
    data_source allow_data_preview :
  replies1 !! 0%nat = Some reply0 ->
  replies2 !! 0%nat = Some reply0 ->
  run replies1 timeout project_id use_dry_plan allow_dry_plan_fallback
    data_source allow_data_preview =
  run replies2 timeout project_id use_dry_plan allow_dry_plan_fallback
    data_source allow_data_preview.
Proof.
  intros H1 H2. unfold run, run_body, normalize, first.
  by rewrite H1, H2.
Qed.

End Facts.
End SQLGenPostProcessorFacts.

Module InstructionsServiceFacts.
Import InstructionsService.

Lemma TTLCache_get_None (cache : TTLCache) (now : Z) (key : string) :
  TTLCache_get cache now key = None <->
  links cache !! key = None ∨
  ∃ value expires, links cache !! key = Some (value, expires) ∧ (expires <= now)%Z.
Proof.
  unfold TTLCache_get.
  destruct (links cache !! key) as [[value expires]|] eqn:Hl.
  - destruct (Z.ltb_spec now expires) as [Hlt|Hge]; split.
    + discriminate.
    + intros [? | (v & e & [= <- <-] & Hle)]; [discriminate | lia].
    + intros _. right. by exists value, expires.
    + reflexivity.
  - split; [by left | reflexivity].
Qed.

(** C10: for an event id that the cache does not hold (never stored, or
    expired at the time of the call) the lookup returns normally: a new event
    with that id, status failed and an OTHERS error whose message quotes the
    id; the service, and so its cache, is left as it was. *)
Theorem getitem_of_missing_event (self : service) (now : Z) (event_id : string) :
  (links (_cache self) !! event_id = None ∨
   ∃ value expires,
     links (_cache self) !! event_id = Some (value, expires) ∧
     (expires <= now)%Z) ->
  let message :=
    "Instructions Event with ID '" +:+ event_id +:+ "' not found." in
  __getitem__ self now event_id =
  (Ret {| InstructionsService.event_id := event_id;
          status := failed;
          error := Some {| code := OTHERS; message := message |};
          trace_id := None;
          request_from := ui |},
   self, [message]).
Proof.
  intros Hmissing. apply TTLCache_get_None in Hmissing.
  unfold __getitem__. by rewrite Hmissing.
Qed.

End InstructionsServiceFacts.

(** * Scenarios: the theorems at concrete inputs *)

Module Scenarios.
Import SQLGenPostProcessor SQLGenPostProcessorFacts Doubles.

Lemma quoting_failure_short_circuits_witness :
  @add_quotes string core (VStr unbalanced_sql) =
    Ret ("", "unterminated string literal") ∧
  ∃ invalid : dict,
    (classify accepting_engine (VStr unbalanced_sql) 30%Q None false true "" false).1
      = Ret (∅, invalid) ∧
    invalid !! "sql" = Some (VStr unbalanced_sql) ∧
    invalid !! "type" = Some (VStr "ADD_QUOTES") ∧
    invalid !! "error" = Some (VStr "unterminated string literal") ∧
    invalid !! "correlation_id" = None ∧
    engine_calls
      (classify accepting_engine (VStr unbalanced_sql) 30%Q None false true "" false)
      = [].
Proof.
  split; [reflexivity |].
  apply (quoting_failure_short_circuits (engine:=accepting_engine)
           (core_engine:=core) (VStr unbalanced_sql) ""
           "unterminated string literal" 30%Q None false true "" false).
  - reflexivity.
  - discriminate.
Defined.

Lemma run_converts_exceptions_witness :
  (run_with accepting_engine ["{oops"] 30%Q None false true "" false).1 =
    Ret (Output ∅ ∅) ∧
  (run_with accepting_engine [query_envelope] 30%Q None false true "" false).1 =
    Ret (Output ∅ ∅) ∧
  (run_with broken_engine [orders_sql] 30%Q None true true "" false).1 =
    Ret (Output ∅ ∅) ∧
  (run_with accepting_engine [] 30%Q None false true "" false).1 =
    Ret (Output ∅ ∅).
Proof.
  split; [| split; [| split]].
  - apply (run_converts_exceptions (engine:=accepting_engine)
             (core_engine:=core) (orjson:=json_reader) ["{oops"] 30%Q None false
             true "" false (PyExn "JSONDecodeError" "unexpected character")).
    left. reflexivity.
  - apply (run_converts_exceptions (engine:=accepting_engine)
             (core_engine:=core) (orjson:=json_reader) [query_envelope] 30%Q None
             false true "" false (PyExn "KeyError" "'sql'")).
    left. vm_compute. reflexivity.
  - apply (run_converts_exceptions (engine:=broken_engine)
             (core_engine:=core) (orjson:=json_reader) [orders_sql] 30%Q None
             true true "" false
             (PyExn "ClientConnectionError" "connection reset")).
    right. exists (VStr orders_sql), []. split; reflexivity.
  - apply (run_converts_exceptions (engine:=accepting_engine)
             (core_engine:=core) (orjson:=json_reader) [] 30%Q None false
             true "" false (PyExn "IndexError" "list index out of range")).
    left. reflexivity.
Defined.

(** C2, counterexample: the engine call is cancelled while it is awaited.
    The classification ends with CancelledError, which is not an instance
    of Exception, and so does [run]: the caller receives the exception and
    not the two empty mappings. *)
Lemma run_propagates_cancellation :
  (classify cancelled_engine (VStr orders_sql) 30%Q None true true "" false).1 =
    RaiseBase (PyExn "CancelledError" "") ∧
  (run_with cancelled_engine [orders_sql] 30%Q None true true "" false).1 =
    RaiseBase (PyExn "CancelledError" "") ∧
  (run_with cancelled_engine [orders_sql] 30%Q None true true "" false).1 ≠
    Ret (Output ∅ ∅).
Proof.
  split; [reflexivity | split; [reflexivity | discriminate]].
Qed.

Lemma timeout_prefix_takes_precedence_witness :
  invalid_of_type
    (classify slow_engine (VStr orders_sql) 30%Q None true true "" true)
    "TIME_OUT" ∧
  invalid_of_type
    (classify slow_engine (VStr orders_sql) 30%Q None false true "" false)
    "TIME_OUT" ∧
  invalid_of_type
    (classify slow_engine (VStr orders_sql) 30%Q None false true "" true)
    "TIME_OUT".
Proof.
  destruct (timeout_prefix_takes_precedence (engine:=slow_engine)
              (core_engine:=core) (VStr orders_sql) orders_quoted 30%Q None
              true "" timeout_message eq_refl eq_refl) as (Hplan & Hdry & Hlive).
  split; [| split].
  - apply Hplan. reflexivity.
  - eapply Hdry; reflexivity.
  - eapply Hlive; reflexivity.
Defined.

Lemma live_preview_failure_type_witness :
  ∃ invalid : dict,
    (classify silent_engine (VStr orders_sql) 30%Q None false true "" true).1 =
      Ret (∅, invalid) ∧
    invalid !! "type" = Some (VStr "PREVIEW_EMPTY_DATA") ∧
    invalid !! "error" = Some (VStr "").
Proof.
  apply (live_preview_failure_type (engine:=silent_engine) (core_engine:=core)
           (VStr orders_sql) orders_quoted 30%Q None true "" VNone
           (mkdict [("error_message", VStr "")]) "");
    reflexivity.
Defined.

Lemma engine_success_is_valid_witness :
  (classify accepting_engine (VStr orders_sql) 30%Q None true true "" true).1 =
    Ret (mkdict [("sql", VStr orders_quoted); ("correlation_id", VStr "")], ∅) ∧
  (classify accepting_engine (VStr orders_sql) 30%Q None false true "" false).1 =
    Ret (mkdict [("sql", VStr orders_quoted); ("correlation_id", VStr "abc")], ∅).
Proof.
  destruct (engine_success_is_valid (engine:=accepting_engine)
              (core_engine:=core) (VStr orders_sql) orders_quoted 30%Q None
              true "" eq_refl) as (Hplan & Hdry & Hlive).
  split.
  - apply (Hplan true ""). reflexivity.
  - apply (Hdry VNone (mkdict [("correlation_id", VStr "abc")])). reflexivity.
Defined.

Lemma strategy_priority_witness :
  engine_calls
    (classify accepting_engine (VStr orders_sql) 30%Q (Some "p1") true true "pg" true) =
  [DryPlanCalled Session orders_quoted "pg" 30%Q true] ∧
  engine_calls
    (classify accepting_engine (VStr orders_sql) 30%Q (Some "p1") false true "pg" false) =
  [ExecuteSqlCalled orders_quoted Session (Some "p1") 30%Q 1 true] ∧
  engine_calls
    (classify accepting_engine (VStr orders_sql) 30%Q (Some "p1") false true "pg" true) =
  [ExecuteSqlCalled orders_quoted Session (Some "p1") 30%Q 1 false].
Proof.
  destruct (strategy_priority (engine:=accepting_engine) (core_engine:=core)
              (VStr orders_sql) orders_quoted 30%Q (Some "p1") true "pg"
              eq_refl) as (Hplan & Hdry & Hlive).
  split; [apply Hplan | split; [exact Hdry | exact Hlive]].
Defined.

Lemma normalize_unwraps_json_witness :
  @normalize Q string core json_reader [sql_envelope; orders_sql] =
    ret (VStr "SELECT 1") ∧
  @run_body Q string accepting_engine core json_reader
    [sql_envelope; orders_sql] 30%Q None false true "" false =
  classify_and_pack (engine:=accepting_engine) (core_engine:=core)
    (VStr "SELECT 1") 30%Q None false true "" false.
Proof.
  destruct (normalize_unwraps_json (engine:=accepting_engine)
              (core_engine:=core) (orjson:=json_reader) sql_envelope [orders_sql]
              sql_envelope 30%Q None false true "" false eq_refl)
    as (_ & _ & Hscenario).
  apply Hscenario; [reflexivity | vm_compute; reflexivity].
Defined.

Lemma run_reads_first_reply_only_witness :
  run_with accepting_engine [orders_sql; unbalanced_sql] 30%Q None false true "" false =
  run_with accepting_engine [orders_sql] 30%Q None false true "" false.
Proof.
  apply (run_reads_first_reply_only (engine:=accepting_engine)
           (core_engine:=core) (orjson:=json_reader)
           [orders_sql; unbalanced_sql] [orders_sql] orders_sql);
    reflexivity.
Defined.

Lemma getitem_of_missing_event_witness :
  InstructionsService.__getitem__ sample_service 120 "evt-1" =
  (Ret (InstructionsService.mkEvent "evt-1" InstructionsService.failed
          (Some (InstructionsService.mkError InstructionsService.OTHERS
                   "Instructions Event with ID 'evt-1' not found."))
          None InstructionsService.ui),
   sample_service,
   ["Instructions Event with ID 'evt-1' not found."]).
Proof.
  apply (InstructionsServiceFacts.getitem_of_missing_event sample_service 120 "evt-1").
  right. exists stored_event, 120%Z. split; [reflexivity | lia].
Defined.

End Scenarios.

(** * Further properties of the classifier *)

Module SQLGenPostProcessorMore.
Import SQLGenPostProcessor SQLGenPostProcessorFacts ResultShape.

Section More.
Context {time reply : Type}.
Context {engine : Engine time} {core_engine : CoreEngine reply}
  {orjson : Orjson}.
Local Open Scope eff_scope.

Implicit Types (timeout : time) (project_id : option string).
Implicit Types (use_dry_plan allow_dry_plan_fallback allow_data_preview : bool).
Implicit Types (data_source quoted_sql : string) (candidate : pyval).

Lemma classify_quote_raises candidate timeout project_id use_dry_plan
    allow_dry_plan_fallback data_source allow_data_preview e :
  add_quotes candidate = Raise e ->
  _classify_generation_result candidate timeout project_id use_dry_plan
    allow_dry_plan_fallback data_source allow_data_preview = (Raise e, []).
Proof. intros Hq. unfold _classify_generation_result. by rewrite Hq. Qed.

Lemma classify_quote_raises_base candidate timeout project_id use_dry_plan
    allow_dry_plan_fallback data_source allow_data_preview e :
  add_quotes candidate = RaiseBase e ->
  _classify_generation_result candidate timeout project_id use_dry_plan
    allow_dry_plan_fallback data_source allow_data_preview = (RaiseBase e, []).
Proof. intros Hq. unfold _classify_generation_result. by rewrite Hq. Qed.

(** The events of a classification, by the outcome of quoting. *)
Lemma classify_events candidate timeout project_id use_dry_plan
    allow_dry_plan_fallback data_source allow_data_preview :
  (_classify_generation_result candidate timeout project_id use_dry_plan
     allow_dry_plan_fallback data_source allow_data_preview).2 =
  match add_quotes candidate with
  | Raise _ | RaiseBase _ => []
  | Ret (quoted_sql, error_message) =>
      SessionOpened ::
      (if String.eqb error_message "" then
         [if use_dry_plan then
            DryPlanCalled Session quoted_sql data_source timeout
              allow_dry_plan_fallback
          else
            ExecuteSqlCalled quoted_sql Session project_id timeout 1
              (negb allow_data_preview)]
       else []) ++ [SessionClosed]
  end.
Proof.
  destruct (add_quotes candidate) as [[quoted_sql error_message]|e|e] eqn:Hq.
  - destruct (String.eqb_spec error_message "") as [-> | Hne].
    + destruct use_dry_plan.
      * by rewrite (classify_dry_plan _ _ _ _ _ _ _ Hq).
      * by rewrite (classify_execute _ _ _ _ _ _ _ Hq).
    + by rewrite (classify_quote_error _ _ _ _ _ _ _ _ _ Hq Hne).
  - by rewrite (classify_quote_raises _ _ _ _ _ _ _ _ Hq).
  - by rewrite (classify_quote_raises_base _ _ _ _ _ _ _ _ Hq).
Qed.

(** X1: the session scope.  When quoting returns, the events of a
    classification are the opening of the session, at most one engine call
    and the closing of the session, also when the engine raises; when
    quoting raises, with either kind of exception, nothing has happened. *)
Theorem session_wraps_engine_calls candidate timeout project_id use_dry_plan
    allow_dry_plan_fallback data_source allow_data_preview :
  let call :=
    _classify_generation_result candidate timeout project_id use_dry_plan
      allow_dry_plan_fallback data_source allow_data_preview in
  match add_quotes candidate with
  | Raise e => call = (Raise e, [])
  | RaiseBase e => call = (RaiseBase e, [])
  | Ret _ =>
      ∃ calls : list (event time),
        call.2 = SessionOpened :: calls ++ [SessionClosed] ∧
        Forall (λ ev, is_engine_call ev = true) calls ∧
        (length calls <= 1)%nat
  end.
Proof.
  intros call. subst call.
  pose proof (classify_events candidate timeout project_id use_dry_plan
                allow_dry_plan_fallback data_source allow_data_preview) as Hev.
  destruct (add_quotes candidate) as [[quoted_sql error_message]|e|e] eqn:Hq.
  - rewrite Hev. eexists. split; [reflexivity |].
    destruct (String.eqb error_message ""); simpl.
    + split; [| lia]. constructor; [| constructor]. by destruct use_dry_plan.
    + split; [constructor | lia].
  - by apply classify_quote_raises.
  - by apply classify_quote_raises_base.
Qed.

(** Normalization touches neither the session nor the engine. *)
Lemma normalize_silent (replies : list reply) :
  (normalize (time:=time) replies).2 = [].
Proof.
  unfold normalize.
  destruct (first replies) as [reply0|e|e]; [| reflexivity | reflexivity].
  rewrite bind_lift_Ret.
  destruct (clean_generation_result reply0) as [cleaned|e|e];
    [| reflexivity | reflexivity].
  rewrite bind_lift_Ret.
  destruct (String.prefix "{" cleaned); [| reflexivity].
  destruct (loads cleaned) as [parsed|e|e]; [| reflexivity | reflexivity].
  rewrite bind_lift_Ret. reflexivity.
Qed.

Lemma run_events replies timeout project_id use_dry_plan
    allow_dry_plan_fallback data_source allow_data_preview :
  let call :=
    run replies timeout project_id use_dry_plan allow_dry_plan_fallback
      data_source allow_data_preview in
  match normalize (time:=time) replies with
  | (Raise e, _) =>
      call = (Ret (Output ∅ ∅),
              [Logged ("Error in SQLGenPostProcessor: " +:+ exn_msg e)])
  | (RaiseBase e, _) => call = (RaiseBase e, [])
  | (Ret candidate, _) =>
      let classification :=
        _classify_generation_result candidate timeout project_id use_dry_plan
          allow_dry_plan_fallback data_source allow_data_preview in
      match classification.1 with
      | Ret _ | RaiseBase _ => call.2 = classification.2
      | Raise e =>
          call.2 =
          classification.2 ++
          [Logged ("Error in SQLGenPostProcessor: " +:+ exn_msg e)]
      end
  end.
Proof.
  intros call. subst call. unfold run, run_body.
  pose proof (normalize_silent replies) as Hsilent.
  destruct (normalize (time:=time) replies) as [[candidate|e|e] tr];
    simpl in Hsilent; subst tr.
  - change (@pair (outcome pyval) (list (event time)) (Ret candidate) [])
      with (ret (time:=time) candidate).
    rewrite bind_ret.
    destruct (_classify_generation_result _ _ _ _ _ _ _)
      as [[[valid invalid]|e|e] tr]; simpl.
    + by rewrite app_nil_r.
    + reflexivity.
    + reflexivity.
  - reflexivity.
  - reflexivity.
Qed.

(** X2: [run] calls the engine at most once, whatever its input; there is no
    retry, neither after an engine failure nor after an exception. *)
Theorem run_calls_engine_at_most_once replies timeout project_id use_dry_plan
    allow_dry_plan_fallback data_source allow_data_preview :
  (length
     (engine_calls
        (run replies timeout project_id use_dry_plan allow_dry_plan_fallback
           data_source allow_data_preview)) <= 1)%nat.
Proof.
  pose proof (run_events replies timeout project_id use_dry_plan
                allow_dry_plan_fallback data_source allow_data_preview) as Hrun.
  simpl in Hrun. unfold engine_calls.
  destruct (normalize (time:=time) replies) as [[candidate|e|e] tr].
  - pose proof (classify_events candidate timeout project_id use_dry_plan
                  allow_dry_plan_fallback data_source allow_data_preview) as Hev.
    assert (Hcls : (length (List.filter is_engine_call
              (_classify_generation_result candidate timeout project_id
                 use_dry_plan allow_dry_plan_fallback data_source
                 allow_data_preview).2) <= 1)%nat).
    { rewrite Hev.
      destruct (add_quotes candidate) as [[quoted_sql error_message]|e|e];
        [| simpl; lia | simpl; lia].
      destruct (String.eqb error_message ""); [| simpl; lia].
      destruct use_dry_plan; simpl; lia. }
    destruct ((_classify_generation_result _ _ _ _ _ _ _).1).
    + by rewrite Hrun.
    + rewrite Hrun, List.filter_app. simpl. by rewrite app_nil_r.
    + by rewrite Hrun.
  - rewrite Hrun. simpl. lia.
  - rewrite Hrun. simpl. lia.
Qed.

(** X3: a reply that cannot be normalized costs nothing: [run] returns the
    two empty mappings having opened no session and called no engine; the only
    event is the log entry of the exception. *)
Theorem failed_normalization_reaches_nothing replies timeout project_id
    use_dry_plan allow_dry_plan_fallback data_source allow_data_preview e :
  (normalize (time:=time) replies).1 = Raise e ->
  run replies timeout project_id use_dry_plan allow_dry_plan_fallback
    data_source allow_data_preview =
  (Ret (Output ∅ ∅),
   [Logged ("Error in SQLGenPostProcessor: " +:+ exn_msg e)]).
Proof.
  intros Hn.
  pose proof (run_events replies timeout project_id use_dry_plan
                allow_dry_plan_fallback data_source allow_data_preview) as Hrun.
  simpl in Hrun.
  destruct (normalize (time:=time) replies) as [[candidate|e'|e'] tr];
    simpl in Hn; [discriminate | | discriminate].
  by injection Hn as ->.
Qed.

(** X4: a failed execution whose [error_message] entry is not a string is
    not reported as an invalid result: the engine has been called, the
    classifier raises and [run] returns the two empty mappings. *)
Theorem non_text_error_message_is_lost replies candidate quoted_sql timeout
    project_id allow_dry_plan_fallback data_source allow_data_preview
    rows addition (v : pyval) :
  normalize (time:=time) replies = ret candidate ->
  add_quotes candidate = Ret (quoted_sql, "") ->
  execute_sql quoted_sql Session project_id timeout 1
    (negb allow_data_preview) = Ret (false, rows, addition) ->
  addition !! "error_message" = Some v ->
  is_text v = false ->
  let call :=
    run replies timeout project_id false allow_dry_plan_fallback data_source
      allow_data_preview in
  call.1 = Ret (Output ∅ ∅) ∧
  engine_calls call =
    [ExecuteSqlCalled quoted_sql Session project_id timeout 1
       (negb allow_data_preview)].
Proof.
  intros Hn Hq Hexec Hv Htext call. subst call.
  pose proof (run_events replies timeout project_id false
                allow_dry_plan_fallback data_source allow_data_preview) as Hrun.
  simpl in Hrun. rewrite Hn in Hrun. unfold ret in Hrun.
  rewrite (classify_execute _ _ _ _ _ _ _ Hq) in Hrun.
  rewrite Hexec in Hrun. unfold dict_get in Hrun. rewrite Hv in Hrun.
  assert (Hraise : ∃ e, startswith v "Request timed out" = Raise e).
  { destruct v; try discriminate; eexists; reflexivity. }
  destruct Hraise as [e He]. simpl in Hrun. rewrite He in Hrun.
  simpl in Hrun. split.
  - unfold run.
    rewrite (try_except_handles _ _ e); [reflexivity |].
    unfold run_body. rewrite Hn, bind_ret.
    rewrite (classify_execute _ _ _ _ _ _ _ Hq), Hexec.
    unfold dict_get. rewrite Hv. simpl. by rewrite He.
  - unfold engine_calls. by rewrite Hrun.
Qed.

(** X5: in dry-plan mode an engine rejection gives an invalid result that
    carries the quoted SQL, the engine's message, the empty correlation id
    and the type DRY_PLAN, or TIME_OUT for a message that starts with
    "Request timed out"; [allow_data_preview] plays no part. *)
Theorem dry_plan_failure_result candidate quoted_sql timeout project_id
    allow_dry_plan_fallback data_source allow_data_preview error_message :
  add_quotes candidate = Ret (quoted_sql, "") ->
  dry_plan Session quoted_sql data_source timeout allow_dry_plan_fallback =
    Ret (false, error_message) ->
  (_classify_generation_result candidate timeout project_id true
     allow_dry_plan_fallback data_source allow_data_preview).1 =
  Ret (∅,
       mkdict [("sql", VStr quoted_sql);
               ("type", VStr (if String.prefix "Request timed out" error_message
                              then "TIME_OUT" else "DRY_PLAN"));
               ("error", VStr error_message);
               ("correlation_id", VStr "")]).
Proof.
  intros Hq Hplan. by rewrite (classify_dry_plan _ _ _ _ _ _ _ Hq), Hplan.
Qed.

(** X6: in dry-run mode a failed execution gives an invalid result with the
    quoted SQL, the engine's message and correlation id, and the type DRY_RUN
    unless the message starts with "Request timed out"; an empty or absent
    message is still DRY_RUN, not PREVIEW_EMPTY_DATA. *)
Theorem dry_run_failure_result candidate quoted_sql timeout project_id
    allow_dry_plan_fallback data_source rows addition error_message :
  add_quotes candidate = Ret (quoted_sql, "") ->
  execute_sql quoted_sql Session project_id timeout 1 true =
    Ret (false, rows, addition) ->
  default (VStr "") (addition !! "error_message") = VStr error_message ->
  (_classify_generation_result candidate timeout project_id false
     allow_dry_plan_fallback data_source false).1 =
  Ret (∅,
       mkdict [("sql", VStr quoted_sql);
               ("type", VStr (if String.prefix "Request timed out" error_message
                              then "TIME_OUT" else "DRY_RUN"));
               ("error", VStr error_message);
               ("correlation_id",
                default (VStr "") (addition !! "correlation_id"))]).
Proof.
  intros Hq Hexec Hmsg.
  rewrite (classify_execute _ _ _ _ _ _ _ Hq). simpl. rewrite Hexec.
  assert (Hget : ∀ key, dict_get addition key (VStr "") =
                        default (VStr "") (addition !! key)).
  { intros key. unfold dict_get. by destruct (addition !! key). }
  rewrite !Hget, Hmsg. simpl.
  by destruct (String.prefix "Request timed out" error_message).
Qed.

Lemma dom_valid_dict (sql corr : pyval) :
  dom (mkdict [("sql", sql); ("correlation_id", corr)]) = valid_keys.
Proof.
  unfold mkdict, valid_keys; simpl.
  rewrite !dom_insert_L, dom_empty_L. set_solver.
Qed.

Lemma dom_engine_invalid_dict (sql : pyval) (ty : string) (err corr : pyval) :
  dom (mkdict [("sql", sql); ("type", VStr ty); ("error", err);
               ("correlation_id", corr)]) =
  {["sql"; "type"; "error"; "correlation_id"]}.
Proof.
  unfold mkdict; simpl. rewrite !dom_insert_L, dom_empty_L. set_solver.
Qed.

(** X7: the shape of every result.  A populated valid result has exactly the
    keys sql and correlation_id.  A populated invalid result has a [type]
    among the six error types and exactly the keys sql, type, error and
    correlation_id, except that an ADD_QUOTES result has no correlation_id. *)
Theorem results_have_fixed_shape candidate timeout project_id use_dry_plan
    allow_dry_plan_fallback data_source allow_data_preview
    (valid invalid : dict) :
  (_classify_generation_result candidate timeout project_id use_dry_plan
     allow_dry_plan_fallback data_source allow_data_preview).1 =
    Ret (valid, invalid) ->
  (valid ≠ ∅ -> dom valid = valid_keys) ∧
  (invalid ≠ ∅ ->
   ∃ ty : string,
     In ty error_types ∧
     invalid !! "type" = Some (VStr ty) ∧
     dom invalid = invalid_keys ty).
Proof.
  destruct (add_quotes candidate) as [[quoted_sql error_message]|e|e] eqn:Hq.
  - destruct (String.eqb_spec error_message "") as [-> | Hne].
    + destruct use_dry_plan.
      * rewrite (classify_dry_plan _ _ _ _ _ _ _ Hq). simpl.
        destruct (dry_plan _ _ _ _ _) as [[[] msg]|e|e];
          intros [= <- <-] || discriminate.
        -- split; [intros _; apply dom_valid_dict | done].
        -- split; [done | intros _].
           destruct (String.prefix "Request timed out" msg); eexists;
             (split; [| split;
                [apply type_of_invalid | apply dom_engine_invalid_dict]]);
             simpl; tauto.
      * rewrite (classify_execute _ _ _ _ _ _ _ Hq). simpl.
        destruct (execute_sql _ _ _ _ _ _) as [[[[] rows] addition]|e|e]; simpl;
          [| destruct (startswith _ _) as [timed_out|e|e]; simpl | |];
          intros [= <- <-] || discriminate.
        -- split; [intros _; apply dom_valid_dict | done].
        -- split; [done | intros _].
           destruct timed_out, allow_data_preview;
             try destruct (eq_str _ _); eexists;
             (split; [| split;
                [apply type_of_invalid | apply dom_engine_invalid_dict]]);
             simpl; tauto.
    + rewrite (classify_quote_error _ _ _ _ _ _ _ _ _ Hq Hne).
      intros [= <- <-]. split; [done | intros _].
      exists "ADD_QUOTES". split; [simpl; tauto |].
      unfold mkdict, invalid_keys; simpl. split; [by simplify_map_eq |].
      rewrite !dom_insert_L, dom_empty_L. set_solver.
  - rewrite (classify_quote_raises _ _ _ _ _ _ _ _ Hq). discriminate.
  - rewrite (classify_quote_raises_base _ _ _ _ _ _ _ _ Hq). discriminate.
Qed.

(** X8: the parameters a strategy does not use do not influence it.  With
    [use_dry_plan] the classification is the same for every [project_id] and
    [allow_data_preview]; without it, for every [allow_dry_plan_fallback] and
    [data_source].  This covers the result and the events. *)
Theorem unused_parameters_are_ignored candidate timeout project_id project_id'
    allow_dry_plan_fallback allow_dry_plan_fallback' data_source data_source'
    allow_data_preview allow_data_preview' :
  _classify_generation_result candidate timeout project_id true
    allow_dry_plan_fallback data_source allow_data_preview =
  _classify_generation_result candidate timeout project_id' true
    allow_dry_plan_fallback data_source allow_data_preview' ∧
  _classify_generation_result candidate timeout project_id false
    allow_dry_plan_fallback data_source allow_data_preview =
  _classify_generation_result candidate timeout project_id false
    allow_dry_plan_fallback' data_source' allow_data_preview.
Proof.
  destruct (add_quotes candidate) as [[quoted_sql error_message]|e|e] eqn:Hq.
  - destruct (String.eqb_spec error_message "") as [-> | Hne].
    + split.
      * by rewrite !(classify_dry_plan _ _ _ _ _ _ _ Hq).
      * by rewrite !(classify_execute _ _ _ _ _ _ _ Hq).
    + by rewrite !(classify_quote_error _ _ _ _ _ _ _ _ _ Hq Hne).
  - by rewrite !(classify_quote_raises _ _ _ _ _ _ _ _ Hq).
  - by rewrite !(classify_quote_raises_base _ _ _ _ _ _ _ _ Hq).
Qed.

(** X9: once quoting has succeeded, whatever the engine answers, the result
    that is returned carries the quoted SQL under [sql], as a string: the
    unquoted candidate is never passed on. *)
Theorem engine_results_carry_quoted_sql candidate quoted_sql timeout project_id
    use_dry_plan allow_dry_plan_fallback data_source allow_data_preview
    (valid invalid : dict) :
  add_quotes candidate = Ret (quoted_sql, "") ->
  (_classify_generation_result candidate timeout project_id use_dry_plan
     allow_dry_plan_fallback data_source allow_data_preview).1 =
    Ret (valid, invalid) ->
  (valid ∪ invalid) !! "sql" = Some (VStr quoted_sql).
Proof.
  intros Hq. destruct use_dry_plan.
  - rewrite (classify_dry_plan _ _ _ _ _ _ _ Hq). simpl.
    destruct (dry_plan _ _ _ _ _) as [[[] msg]|e|e];
      intros [= <- <-] || discriminate;
      unfold mkdict; simpl; rewrite lookup_union; by simplify_map_eq.
  - rewrite (classify_execute _ _ _ _ _ _ _ Hq). simpl.
    destruct (execute_sql _ _ _ _ _ _) as [[[[] rows] addition]|e|e]; simpl;
      [| destruct (startswith _ _); simpl | |];
      intros [= <- <-] || discriminate;
      unfold mkdict; simpl; rewrite lookup_union; by simplify_map_eq.
Qed.

(** X17: a result is valid only with the engine's approval: whenever the
    classifier returns a populated valid result, quoting succeeded and the
    engine operation of the selected strategy reported success on the quoted
    SQL. *)
Theorem valid_only_on_engine_success candidate timeout project_id use_dry_plan
    allow_dry_plan_fallback data_source allow_data_preview
    (valid invalid : dict) :
  (_classify_generation_result candidate timeout project_id use_dry_plan
     allow_dry_plan_fallback data_source allow_data_preview).1 =
    Ret (valid, invalid) ->
  valid ≠ ∅ ->
  ∃ quoted_sql : string,
    add_quotes candidate = Ret (quoted_sql, "") ∧
    if use_dry_plan then
      ∃ error_message,
        dry_plan Session quoted_sql data_source timeout
          allow_dry_plan_fallback = Ret (true, error_message)
    else
      ∃ rows addition,
        execute_sql quoted_sql Session project_id timeout 1
          (negb allow_data_preview) = Ret (true, rows, addition).
Proof.
  destruct (add_quotes candidate) as [[quoted_sql error_message]|e|e] eqn:Hq.
  - destruct (String.eqb_spec error_message "") as [-> | Hne].
    + destruct use_dry_plan.
      * rewrite (classify_dry_plan _ _ _ _ _ _ _ Hq). simpl.
        destruct (dry_plan _ _ _ _ _) as [[[] msg]|e|e] eqn:Hplan;
          intros [= <- <-] || discriminate; intros Hvalid; [| done].
        exists quoted_sql. split; [reflexivity | by exists msg].
      * rewrite (classify_execute _ _ _ _ _ _ _ Hq). simpl.
        destruct (execute_sql _ _ _ _ _ _) as [[[[] rows] addition]|e|e]
          eqn:Hexec; simpl;
          [| destruct (startswith _ _); simpl | |];
          intros [= <- <-] || discriminate; intros Hvalid; [| done].
        exists quoted_sql. split; [reflexivity | by exists rows, addition].
    + rewrite (classify_quote_error _ _ _ _ _ _ _ _ _ Hq Hne).
      by intros [= <- <-].
  - rewrite (classify_quote_raises _ _ _ _ _ _ _ _ Hq). discriminate.
  - rewrite (classify_quote_raises_base _ _ _ _ _ _ _ _ Hq). discriminate.
Qed.

End More.
End SQLGenPostProcessorMore.

(** * The helpers of sql.py *)

Module SqlUtilsFacts.
Import SqlUtils.

(** X10: [construct_instructions] returns one entry per instruction, in
    order: the value under [instruction], or [None] when the dict has no such
    key; it never skips an instruction.  Without instructions ([None] or an
    empty list) the result is empty. *)
Theorem construct_instructions_entries (instructions : list dict) :
  construct_instructions None = [] ∧
  length (construct_instructions (Some instructions)) = length instructions ∧
  ∀ (i : nat) (instruction : dict),
    instructions !! i = Some instruction ->
    construct_instructions (Some instructions) !! i =
      Some (default VNone (instruction !! "instruction")).
Proof.
  split; [reflexivity |].
  assert (Heq : construct_instructions (Some instructions) =
                map (λ d : dict, default VNone (d !! "instruction")) instructions).
  { destruct instructions as [|d l]; [reflexivity |].
    unfold construct_instructions. rewrite app_nil_l.
    apply map_ext. intros d'. unfold dict_get.
    by destruct (d' !! "instruction"). }
  rewrite Heq. split.
  - apply length_map.
  - intros i instruction Hi. by rewrite list_lookup_fmap, Hi.
Qed.

Section HistoryFacts.
Context {message : Type} {chat : ChatMessages message}.

(** The two messages one history stands for. *)
Lemma append_history_messages_cons (h : history) (histories : list history)
    (messages : list message) (question sql : pyval) (u a : message) :
  question_of h = Ret question -> from_user question = Ret u ->
  sql_of h = Ret sql -> from_assistant sql = Ret a ->
  append_history_messages (h :: histories) messages =
  append_history_messages histories (messages ++ [u; a]).
Proof.
  intros Hq Hu Hs Ha. simpl. rewrite Hq, Hu, Hs, Ha.
  by rewrite <- app_assoc.
Qed.

Lemma append_history_messages_acc (histories : list history)
    (messages : list message) :
  append_history_messages histories messages =
  match append_history_messages histories [] with
  | Ret produced => Ret (messages ++ produced)
  | Raise e => Raise e
  | RaiseBase e => RaiseBase e
  end.
Proof.
  revert messages. induction histories as [|h histories IH]; intros messages.
  - simpl. by rewrite app_nil_r.
  - simpl.
    destruct (question_of h) as [question|e|e]; [| reflexivity | reflexivity].
    destruct (from_user question) as [u|e|e]; [| reflexivity | reflexivity].
    destruct (sql_of h) as [sql|e|e]; [| reflexivity | reflexivity].
    destruct (from_assistant sql) as [a|e|e]; [| reflexivity | reflexivity].
    rewrite (IH ((messages ++ [u]) ++ [a])), (IH [u; a]).
    destruct (append_history_messages histories []) as [produced|e|e];
      [| reflexivity | reflexivity].
    by rewrite <- !app_assoc.
Qed.

(** X11: the history of a concatenation is the concatenation of the
    histories; an exception in the first part, of either kind, wins over one
    in the second. *)
Theorem construct_ask_history_messages_app (histories1 histories2 : list history) :
  construct_ask_history_messages (histories1 ++ histories2) =
  match construct_ask_history_messages histories1 with
  | Raise e => Raise e
  | RaiseBase e => RaiseBase e
  | Ret messages1 =>
      match construct_ask_history_messages histories2 with
      | Raise e => Raise e
      | RaiseBase e => RaiseBase e
      | Ret messages2 => Ret (messages1 ++ messages2)
      end
  end.
Proof.
  unfold construct_ask_history_messages.
  induction histories1 as [|h histories1 IH].
  - simpl. by destruct (append_history_messages histories2 []).
  - simpl.
    destruct (question_of h) as [question|e|e]; [| reflexivity | reflexivity].
    destruct (from_user question) as [u|e|e]; [| reflexivity | reflexivity].
    destruct (sql_of h) as [sql|e|e]; [| reflexivity | reflexivity].
    destruct (from_assistant sql) as [a|e|e]; [| reflexivity | reflexivity].
    rewrite (append_history_messages_acc (histories1 ++ histories2)),
      (append_history_messages_acc histories1), IH.
    destruct (append_history_messages histories1 []) as [messages1|e|e];
      [| reflexivity | reflexivity].
    destruct (append_history_messages histories2 []) as [messages2|e|e];
      [| reflexivity | reflexivity].
    by rewrite app_assoc.
Qed.

(** X12: when [construct_ask_history_messages] returns, it returns two
    messages per history, in the order of the histories: at position [2 i]
    the user message made of the question of history [i], at position
    [2 i + 1] the assistant message made of its SQL. *)
Theorem construct_ask_history_messages_shape (histories : list history)
    (messages : list message) :
  construct_ask_history_messages histories = Ret messages ->
  length messages = (2 * length histories)%nat ∧
  ∀ (i : nat) (h : history),
    histories !! i = Some h ->
    ∃ (question sql : pyval) (u a : message),
      question_of h = Ret question ∧ from_user question = Ret u ∧
      sql_of h = Ret sql ∧ from_assistant sql = Ret a ∧
      messages !! (2 * i)%nat = Some u ∧
      messages !! (2 * i + 1)%nat = Some a.
Proof.
  unfold construct_ask_history_messages.
  revert messages. induction histories as [|h histories IH]; intros messages.
  - simpl. intros [= <-]. split; [reflexivity |]. intros i h' Hi. discriminate.
  - simpl.
    destruct (question_of h) as [question|e|e] eqn:Hq;
      [| discriminate | discriminate].
    destruct (from_user question) as [u|e|e] eqn:Hu;
      [| discriminate | discriminate].
    destruct (sql_of h) as [sql|e|e] eqn:Hs; [| discriminate | discriminate].
    destruct (from_assistant sql) as [a|e|e] eqn:Ha;
      [| discriminate | discriminate].
    rewrite append_history_messages_acc.
    destruct (append_history_messages histories []) as [produced|e|e] eqn:Hrest;
      [| discriminate | discriminate].
    intros [= <-]. destruct (IH produced eq_refl) as [Hlen Hat].
    split.
    + simpl. rewrite Hlen. lia.
    + intros [|i] h' Hi.
      * injection Hi as <-. by exists question, sql, u, a.
      * destruct (Hat i h' Hi) as (q' & s' & u' & a' & ? & ? & ? & ? & Hu' & Ha').
        exists q', s', u', a'. repeat (split; [assumption |]).
        match goal with
        | |- _ !! ?n = _ ∧ _ !! ?m = _ =>
            replace m with (S (S (2 * i + 1))) by lia;
            replace n with (S (S (2 * i))) by lia
        end.
        by split.
Qed.

(** X13: a dict history without the key [question] makes the construction
    raise KeyError for that key, whether or not [sql] is there and whatever
    follows; with a question and no [sql] the KeyError is for [sql].  The
    histories before it must have been converted. *)
Theorem construct_ask_history_messages_missing_key
    (before after : list history) (d : dict) (converted : list message) :
  construct_ask_history_messages before = Ret converted ->
  (d !! "question" = None ->
   construct_ask_history_messages (before ++ HistoryDict d :: after) =
     Raise (PyExn "KeyError" "'question'")) ∧
  (∀ (question : pyval) (u : message),
     d !! "question" = Some question -> from_user question = Ret u ->
     d !! "sql" = None ->
     construct_ask_history_messages (before ++ HistoryDict d :: after) =
       Raise (PyExn "KeyError" "'sql'")).
Proof.
  intros Hbefore. split.
  - intros Hq. rewrite construct_ask_history_messages_app, Hbefore.
    unfold construct_ask_history_messages. simpl. by rewrite Hq.
  - intros question u Hq Hu Hs.
    rewrite construct_ask_history_messages_app, Hbefore.
    unfold construct_ask_history_messages. simpl. by rewrite Hq, Hu, Hs.
Qed.

End HistoryFacts.
End SqlUtilsFacts.

(** * The instruction list of [index] *)

Module InstructionsIndexingFacts.
Import InstructionsIndexing.

Lemma append_questions_spec (instruction0 : Instruction) (questions0 : list string)
    (instructions : list IndexedInstruction) :
  append_questions instruction0 questions0 instructions =
  instructions ++
  map (fun question0 =>
         mkIndexedInstruction (id instruction0) (instruction instruction0)
           question0 false (scope instruction0))
    questions0.
Proof.
  revert instructions.
  induction questions0 as [|question0 questions0 IH]; intros instructions.
  - simpl. by rewrite app_nil_r.
  - simpl. rewrite IH. by rewrite <- app_assoc.
Qed.

Lemma append_instructions_spec (request_instructions : list Instruction)
    (instructions : list IndexedInstruction) :
  append_instructions request_instructions instructions =
  instructions ++ flat_map entries_of request_instructions.
Proof.
  revert instructions.
  induction request_instructions as [|instruction0 request_instructions IH];
    intros instructions.
  - simpl. by rewrite app_nil_r.
  - simpl. rewrite IH. unfold entries_of.
    destruct (is_default instruction0).
    + by rewrite <- app_assoc.
    + rewrite append_questions_spec. by rewrite <- app_assoc.
Qed.

(** X14: the list handed to the indexing pipeline is the concatenation, in
    request order, of the entries of each instruction: one entry with an
    empty question for a default instruction, one entry per question, in
    order, for any other.  Its length is the number of default instructions
    plus the number of questions of the others. *)
Theorem index_instructions_flattens (request_instructions : list Instruction) :
  index_instructions request_instructions =
    flat_map entries_of request_instructions ∧
  length (index_instructions request_instructions) =
    list_sum
      (map (fun instruction0 =>
              if is_default instruction0 then 1%nat
              else length (questions instruction0))
         request_instructions).
Proof.
  assert (Heq : index_instructions request_instructions =
                flat_map entries_of request_instructions).
  { unfold index_instructions. by rewrite append_instructions_spec. }
  split; [exact Heq |]. rewrite Heq.
  induction request_instructions as [|instruction0 request_instructions IH].
  - reflexivity.
  - simpl. rewrite length_app, IH.
    + f_equal. unfold entries_of.
      destruct (is_default instruction0); [reflexivity | apply length_map].
    + unfold index_instructions. by rewrite append_instructions_spec.
Qed.

(** X15: what is indexed.  An entry is in the list exactly when it copies the
    id, text, scope and default flag of some instruction of the request and
    its question is empty if that instruction is a default one, and one of
    the instruction's questions otherwise. *)
Theorem index_instructions_membership (request_instructions : list Instruction)
    (entry : IndexedInstruction) :
  In entry (index_instructions request_instructions) <->
  ∃ instruction0 : Instruction,
    In instruction0 request_instructions ∧
    indexed_id entry = id instruction0 ∧
    indexed_instruction entry = instruction instruction0 ∧
    indexed_scope entry = scope instruction0 ∧
    indexed_is_default entry = is_default instruction0 ∧
    (if is_default instruction0 then question entry = ""
     else In (question entry) (questions instruction0)).
Proof.
  unfold index_instructions. rewrite append_instructions_spec. simpl.
  rewrite in_flat_map. split.
  - intros (instruction0 & Hin & Hentry). exists instruction0.
    split; [exact Hin |]. unfold entries_of in Hentry.
    destruct (is_default instruction0).
    + destruct Hentry as [<- | []]. by repeat split.
    + apply in_map_iff in Hentry as (question0 & <- & Hq). by repeat split.
  - intros (instruction0 & Hin & Hid & Htext & Hscope & Hdefault & Hq).
    exists instruction0. split; [exact Hin |]. unfold entries_of.
    destruct entry as [eid etext equestion edefault escope]. simpl in *.
    subst. destruct (is_default instruction0).
    + left. by subst.
    + apply in_map_iff. by exists equestion.
Qed.

(** X16: which instructions reach the index.  The id of an instruction
    occurs in the list exactly when that instruction is a default one or has
    at least one question: an instruction that is neither is left out
    without any error, and the questions of a default instruction are not
    indexed. *)
Theorem index_instructions_ids (request_instructions : list Instruction)
    (id0 : string) :
  (In id0 (map indexed_id (index_instructions request_instructions)) <->
   ∃ instruction0 : Instruction,
     In instruction0 request_instructions ∧ id instruction0 = id0 ∧
     (is_default instruction0 = true ∨ questions instruction0 ≠ [])) ∧
  (∀ entry : IndexedInstruction,
     In entry (index_instructions request_instructions) ->
     indexed_is_default entry = true -> question entry = "").
Proof.
  unfold index_instructions. rewrite append_instructions_spec. simpl. split.
  - rewrite in_map_iff. split.
    + intros (entry & <- & Hentry).
      apply in_flat_map in Hentry as (instruction0 & Hin & Hentry).
      exists instruction0. split; [exact Hin |]. unfold entries_of in Hentry.
      destruct (is_default instruction0) eqn:Hdefault.
      * destruct Hentry as [<- | []]. split; [reflexivity | by left].
      * apply in_map_iff in Hentry as (question0 & <- & Hq).
        split; [reflexivity | right]. intros Hnil. by rewrite Hnil in Hq.
    + intros (instruction0 & Hin & <- & Hkept).
      destruct (is_default instruction0) eqn:Hdefault.
      * exists (mkIndexedInstruction (id instruction0)
                  (instruction instruction0) "" true (scope instruction0)).
        split; [reflexivity |]. apply in_flat_map. exists instruction0.
        split; [exact Hin |]. unfold entries_of. rewrite Hdefault. by left.
      * destruct Hkept as [? | Hq]; [discriminate |].
        destruct (questions instruction0) as [|question0 rest] eqn:Hqs;
          [done |].
        exists (mkIndexedInstruction (id instruction0)
                  (instruction instruction0) question0 false
                  (scope instruction0)).
        split; [reflexivity |]. apply in_flat_map. exists instruction0.
        split; [exact Hin |]. unfold entries_of. rewrite Hdefault, Hqs.
        by left.
  - intros entry Hentry Hdefault.
    apply in_flat_map in Hentry as (instruction0 & Hin & Hentry).
    unfold entries_of in Hentry. destruct (is_default instruction0).
    + by destruct Hentry as [<- | []].
    + apply in_map_iff in Hentry as (question0 & <- & Hq). discriminate.
Qed.

End InstructionsIndexingFacts.

(** * Scenarios for the further properties *)

Module MoreScenarios.
Import SQLGenPostProcessor SQLGenPostProcessorFacts SQLGenPostProcessorMore.
Import ResultShape Doubles Samples.

Lemma failed_normalization_reaches_nothing_witness :
  run_with accepting_engine [] 30%Q None false true "" false =
  (Ret (Output ∅ ∅),
   [Logged "Error in SQLGenPostProcessor: list index out of range"]).
Proof.
  apply (failed_normalization_reaches_nothing (engine:=accepting_engine)
           (core_engine:=core) (orjson:=json_reader) [] 30%Q None false true
           "" false (PyExn "IndexError" "list index out of range")).
  reflexivity.
Defined.

Lemma non_text_error_message_is_lost_witness :
  (run_with listing_engine [orders_sql] 30%Q None false true "" true).1 =
    Ret (Output ∅ ∅) ∧
  engine_calls (run_with listing_engine [orders_sql] 30%Q None false true "" true) =
    [ExecuteSqlCalled orders_quoted Session None 30%Q 1 false].
Proof.
  apply (non_text_error_message_is_lost (engine:=listing_engine)
           (core_engine:=core) (orjson:=json_reader) [orders_sql]
           (VStr orders_sql) orders_quoted 30%Q None true "" true VNone
           (mkdict [("error_message", VList [VStr "syntax error"]);
                    ("correlation_id", VStr "c-7")])
           (VList [VStr "syntax error"]));
    reflexivity.
Defined.

Lemma dry_plan_failure_result_witness :
  (classify listing_engine (VStr orders_sql) 30%Q None true true "pg" true).1 =
  Ret (∅,
       mkdict [("sql", VStr orders_quoted); ("type", VStr "DRY_PLAN");
               ("error", VStr "plan rejected"); ("correlation_id", VStr "")]).
Proof.
  apply (dry_plan_failure_result (engine:=listing_engine) (core_engine:=core)
           (VStr orders_sql) orders_quoted 30%Q None true "pg" true
           "plan rejected");
    reflexivity.
Defined.

Lemma dry_run_failure_result_witness :
  (classify mute_engine (VStr orders_sql) 30%Q None false true "pg" false).1 =
  Ret (∅,
       mkdict [("sql", VStr orders_quoted); ("type", VStr "DRY_RUN");
               ("error", VStr ""); ("correlation_id", VStr "c-8")]).
Proof.
  apply (dry_run_failure_result (engine:=mute_engine) (core_engine:=core)
           (VStr orders_sql) orders_quoted 30%Q None true "pg" VNone
           (mkdict [("correlation_id", VStr "c-8")]) "");
    reflexivity.
Defined.

Lemma results_have_fixed_shape_witness :
  ∃ ty : string,
    In ty error_types ∧
    mkdict [("sql", VStr unbalanced_sql); ("type", VStr "ADD_QUOTES");
            ("error", VStr "unterminated string literal")] !! "type" =
      Some (VStr ty) ∧
    dom (mkdict [("sql", VStr unbalanced_sql); ("type", VStr "ADD_QUOTES");
                 ("error", VStr "unterminated string literal")]) =
      invalid_keys ty.
Proof.
  apply (results_have_fixed_shape (engine:=accepting_engine)
           (core_engine:=core) (VStr unbalanced_sql) 30%Q None false true ""
           false ∅
           (mkdict [("sql", VStr unbalanced_sql); ("type", VStr "ADD_QUOTES");
                    ("error", VStr "unterminated string literal")])).
  - reflexivity.
  - apply insert_non_empty.
Defined.

Lemma engine_results_carry_quoted_sql_witness :
  (mkdict [("sql", VStr orders_quoted); ("correlation_id", VStr "abc")] ∪ ∅)
    !! "sql" = Some (VStr orders_quoted).
Proof.
  apply (engine_results_carry_quoted_sql (engine:=accepting_engine)
           (core_engine:=core) (VStr orders_sql) orders_quoted 30%Q None false
           true "" true);
    reflexivity.
Defined.

Lemma valid_only_on_engine_success_witness :
  ∃ quoted_sql : string,
    @add_quotes string core (VStr orders_sql) = Ret (quoted_sql, "") ∧
    ∃ error_message,
      @dry_plan Q accepting_engine Session quoted_sql "pg" 30%Q true =
        Ret (true, error_message).
Proof.
  apply (valid_only_on_engine_success (engine:=accepting_engine)
           (core_engine:=core) (VStr orders_sql) 30%Q None true true "pg"
           false
           (mkdict [("sql", VStr orders_quoted); ("correlation_id", VStr "")])
           ∅).
  - reflexivity.
  - apply insert_non_empty.
Defined.

Lemma construct_ask_history_messages_shape_witness :
  length [mkChatMessage USER (VStr "How many orders?");
          mkChatMessage ASSISTANT (VStr "SELECT COUNT(*) FROM orders");
          mkChatMessage USER (VStr "And customers?");
          mkChatMessage ASSISTANT (VStr "SELECT COUNT(*) FROM customers")] =
    (2 * length [first_history; second_history])%nat.
Proof.
  apply (SqlUtilsFacts.construct_ask_history_messages_shape (chat:=plain_chat)
           [first_history; second_history]).
  vm_compute. reflexivity.
Defined.

Lemma construct_ask_history_messages_missing_key_witness :
  SqlUtils.construct_ask_history_messages (chat:=plain_chat)
    ([first_history] ++ empty_history :: [second_history]) =
    Raise (PyExn "KeyError" "'question'") ∧
  SqlUtils.construct_ask_history_messages (chat:=plain_chat)
    ([first_history] ++ question_only_history :: [second_history]) =
    Raise (PyExn "KeyError" "'sql'").
Proof.
  split.
  - apply (SqlUtilsFacts.construct_ask_history_messages_missing_key
             (chat:=plain_chat) [first_history] [second_history] ∅
             [mkChatMessage USER (VStr "How many orders?");
              mkChatMessage ASSISTANT (VStr "SELECT COUNT(*) FROM orders")]);
      reflexivity.
  - apply (SqlUtilsFacts.construct_ask_history_messages_missing_key
             (chat:=plain_chat) [first_history] [second_history]
             (mkdict [("question", VStr "And customers?")])
             [mkChatMessage USER (VStr "How many orders?");
              mkChatMessage ASSISTANT (VStr "SELECT COUNT(*) FROM orders")]
             eq_refl)
      with (question := VStr "And customers?")
           (u := mkChatMessage USER (VStr "And customers?"));
      reflexivity.
Defined.

End MoreScenarios.
